(** * Sales dashboard: normalisation and aggregation pipeline

    A shallow embedding of the data pipeline of the dashboard
    ([src/utils/helpers.py], [src/data/sku_manager.py], [src/data/loader.py],
    [src/data/legend_loader.py]) and the properties of it that the
    specification states.

    Conventions of the embedding.
    - A pandas table whose columns the code reads by fixed names is a list of
      records (the aggregation functions of [helpers.py]); a table whose
      columns may or may not be there is a [frame]: a list of column names and
      rows that are finite maps from column name to cell, a missing cell (NaN,
      None, NaT) being an absent key.
    - Numbers of the input tables are finite and exact ([Q]): the loader
      coerces every price, discount and quantity to a number and replaces what
      it cannot read by 0. Rounding error and overflow of binary64 are not
      modelled, so the order of a summation is immaterial. The results of a
      division are extended numbers ([xnum]) with IEEE 754's infinities and
      NaN, which is what pandas shows as an absent value.
    - An exception is the [None] of the function that raises, and a
      [try]/[except] is the [match] on it; what [st.error] shows is a list of
      diagnostics returned with the result.
    - What pandas does to a single value (reading a timestamp, reading a
      number) is a parameter of the model, the class [Conversions].

    The definitions come first, by source file; the properties follow. *)

From Stdlib Require Import ZArith QArith Qround String Ascii List Sorted Permutation Lia.
From stdpp Require Import base decidable option list strings gmap pretty sorting.

Close Scope Q_scope.
Local Open Scope Z_scope.
Local Open Scope string_scope.
Local Open Scope list_scope.

(** ** Numbers *)

(** A float as pandas computes with it: a finite value, an infinity with its
    sign, or NaN. *)
Inductive xnum :=
| Fin (q : Q)
| Inf (negative : bool)
| NaN.

(** [pd.isna] of a float. *)
Definition isna (x : xnum) : bool :=
  match x with NaN => true | _ => false end.

Definition Qsign (q : Q) : comparison := (q ?= 0)%Q.

(** Division, IEEE 754 on the special values: [x / 0] is an infinity of the
    sign of [x], [0 / 0] is NaN. A sum of the table is never the negative
    zero, so a zero divisor counts as [+0]. *)
Definition xdiv (a b : xnum) : xnum :=
  match a, b with
  | NaN, _ | _, NaN => NaN
  | Fin x, Fin y =>
      match Qsign y with
      | Eq => match Qsign x with
              | Eq => NaN
              | Gt => Inf false
              | Lt => Inf true
              end
      | _ => Fin (x / y)
      end
  | Fin _, Inf _ => Fin 0
  | Inf s, Fin y => match Qsign y with Lt => Inf (negb s) | _ => Inf s end
  | Inf _, Inf _ => NaN
  end.

Definition xsub (a b : xnum) : xnum :=
  match a, b with
  | NaN, _ | _, NaN => NaN
  | Fin x, Fin y => Fin (x - y)
  | Inf s, Fin _ => Inf s
  | Fin _, Inf s => Inf (negb s)
  | Inf s, Inf t => if Bool.eqb s t then NaN else Inf s
  end.

Definition xmul (a b : xnum) : xnum :=
  match a, b with
  | NaN, _ | _, NaN => NaN
  | Fin x, Fin y => Fin (x * y)
  | Inf s, Fin y | Fin y, Inf s =>
      match Qsign y with
      | Eq => NaN
      | Gt => Inf s
      | Lt => Inf (negb s)
      end
  | Inf s, Inf t => Inf (xorb s t)
  end.

(** [Series.sum()]. *)
Definition Qsum (l : list Q) : Q := foldr Qplus 0%Q l.

(** [numpy.rint]: the nearest integer, a tie going to the even one. *)
Definition rint (q : Q) : Z :=
  let f := Qfloor q in
  match (q - inject_Z f ?= 1 # 2)%Q with
  | Lt => f
  | Gt => f + 1
  | Eq => if Z.even f then f else f + 1
  end.

(** [DataFrame.round(2)] on one value: [rint (x * 100) / 100]. *)
Definition round2 (q : Q) : Q := (inject_Z (rint (q * 100)) / 100)%Q.

(** ** Sorting and grouping, as pandas does them *)

Section Sorting.
Context {A K : Type} (leb : K -> K -> bool) (key : A -> K).

Fixpoint insert_by (x : A) (l : list A) : list A :=
  match l with
  | [] => [x]
  | y :: l' => if leb (key x) (key y) then x :: l else y :: insert_by x l'
  end.

(** [DataFrame.sort_values]: ascending in [key], rows of equal key staying
    in the order they had. *)
Definition sort_values (l : list A) : list A := foldr insert_by [] l.

(** The order of the rows by their keys. *)
Definition key_le (a b : A) : Prop := leb (key a) (key b) = true.
End Sorting.

Section Grouping.
Context {A K : Type} `{EqDecision K} (leb : K -> K -> bool) (key : A -> K).

(** [DataFrame.groupby(cols)]: one group per distinct key, the groups in
    ascending order of the key, every group holding its rows in the order
    of the table. *)
Definition groupby (df : list A) : list (K * list A) :=
  (fun k => (k, filter (fun r => key r = k) df))
    <$> sort_values leb id (remove_dups (key <$> df)).
End Grouping.

(** [x / x.shift(1) - 1] of one value, the shifted value missing on the first
    row of a group. *)
Definition pct (prev : option Q) (cur : Q) : xnum :=
  xsub (xdiv (Fin cur) (from_option Fin NaN prev)) (Fin 1).

Section GroupPctChange.
Context {A K : Type} `{Countable K} (key : A -> K) (val : A -> Q).

(** [df.groupby(key)[val].pct_change()]: the rows are walked in the order of
    the table, [seen] holding the last value met in every group. *)
Fixpoint pct_change_from (seen : gmap K Q) (l : list A) : list xnum :=
  match l with
  | [] => []
  | r :: l' =>
      pct (seen !! key r) (val r)
        :: pct_change_from (<[key r := val r]> seen) l'
  end.

Definition group_pct_change (l : list A) : list xnum := pct_change_from ∅ l.

(** The row before [r] in its group, among the rows [pre] that precede it. *)
Definition previous_in_group (pre : list A) (r : A) : option A :=
  last (filter (fun p => key p = key r) pre).
End GroupPctChange.

(** ** [helpers.py]: the aggregations *)

(** A row of the unified table, with the columns the aggregations read. *)
Record order := mk_order {
  Year : Z;
  Month : Z;
  SKU : string;
  Revenue : Q;
  Shipped_Quantity : Q
}.

(** ['Q' + ((Month - 1) // 3 + 1).astype(str)]. *)
Definition quarter_label (month : Z) : string :=
  "Q" +:+ pretty ((month - 1) `div` 3 + 1).

Definition add_quarter (df : list order) : list (order * string) :=
  (fun o => (o, quarter_label (Month o))) <$> df.

(** The grouping key: [SKU] (when grouping by SKU), [Year], [Quarter]. *)
Definition quarter_key : Type := option string * Z * string.

Definition group_cols (by_sku : bool) (r : order * string) : quarter_key :=
  (if by_sku then Some (SKU r.1) else None, Year r.1, r.2).

Definition option_string_compare (a b : option string) : comparison :=
  match a, b with
  | None, None => Eq
  | None, Some _ => Lt
  | Some _, None => Gt
  | Some x, Some y => String.compare x y
  end.

Definition comparison_leb (c : comparison) : bool :=
  match c with Gt => false | _ => true end.

Definition lex (c1 c2 : comparison) : comparison :=
  match c1 with Eq => c2 | _ => c1 end.

Definition quarter_key_leb (a b : quarter_key) : bool :=
  comparison_leb
    (lex (option_string_compare a.1.1 b.1.1)
         (lex (Z.compare a.1.2 b.1.2) (String.compare a.2 b.2))).

(** The key of [sort_values(['Year', 'Quarter'])]: the quarter is compared as
    the text it is. *)
Definition year_quarter_leb (a b : Z * string) : bool :=
  comparison_leb (lex (Z.compare a.1 b.1) (String.compare a.2 b.2)).

(** A row of the grouped table, before the growth columns are added. *)
Record quarter_totals := mk_totals {
  t_SKU : option string;
  t_Year : Z;
  t_Quarter : string;
  t_Total_Revenue : Q;
  t_Units_Sold : Q;
  t_Unique_SKUs : option nat
}.

(** A row of the result of [calculate_quarterly_metrics]. [q_SKU] is there
    when the metrics are by SKU, [Unique_SKUs] when they are not. *)
Record quarterly_row := mk_quarterly {
  q_SKU : option string;
  q_Year : Z;
  q_Quarter : string;
  Total_Revenue : Q;
  Units_Sold : Q;
  Unique_SKUs : option nat;
  Revenue_Growth : xnum;
  Units_Growth : xnum
}.

(** [groupby(group_cols).agg(aggs).reset_index()] and the renaming. *)
Definition quarterly_totals (by_sku : bool) (df : list (order * string))
  : list quarter_totals :=
  (fun g : quarter_key * list (order * string) =>
     {| t_SKU := g.1.1.1;
        t_Year := g.1.1.2;
        t_Quarter := g.1.2;
        t_Total_Revenue := Qsum ((fun r => Revenue r.1) <$> g.2);
        t_Units_Sold := Qsum ((fun r => Shipped_Quantity r.1) <$> g.2);
        t_Unique_SKUs :=
          if by_sku then None
          else Some (length (remove_dups ((fun r => SKU r.1) <$> g.2))) |})
    <$> groupby quarter_key_leb (group_cols by_sku) df.

(** The partition of the growth rates: [groupby('SKU')] or [groupby('Year')]. *)
Definition growth_partition (by_sku : bool) (t : quarter_totals) : option string + Z :=
  if by_sku then inl (t_SKU t) else inr (t_Year t).

Definition with_growth (t : quarter_totals) (rg ug : xnum) : quarterly_row :=
  {| q_SKU := t_SKU t; q_Year := t_Year t; q_Quarter := t_Quarter t;
     Total_Revenue := t_Total_Revenue t; Units_Sold := t_Units_Sold t;
     Unique_SKUs := t_Unique_SKUs t;
     Revenue_Growth := rg; Units_Growth := ug |}.

Definition percent (x : xnum) : xnum := xmul x (Fin 100).

Definition calculate_quarterly_metrics (filtered_df : list order) (by_sku : bool)
  : list quarterly_row :=
  let filtered_df := add_quarter filtered_df in
  let quarterly_metrics := quarterly_totals by_sku filtered_df in
  let quarterly_metrics :=
    sort_values year_quarter_leb (fun t => (t_Year t, t_Quarter t)) quarterly_metrics in
  let revenue_growth :=
    percent <$> group_pct_change (growth_partition by_sku) t_Total_Revenue quarterly_metrics in
  let units_growth :=
    percent <$> group_pct_change (growth_partition by_sku) t_Units_Sold quarterly_metrics in
  zip_with (fun t g => with_growth t g.1 g.2)
           quarterly_metrics (zip revenue_growth units_growth).

(** A row of the result of [get_sku_metrics]. *)
Record sku_row := mk_sku_row {
  s_SKU : string;
  s_Total_Revenue : Q;
  Avg_Revenue_per_Order : Q;
  s_Units_Sold : Q
}.

Definition Qlen {A} (l : list A) : Q := inject_Z (Z.of_nat (length l)).

(** [Series.mean()] of a group, which has a row at least. *)
Definition Qmean (l : list Q) : Q := (Qsum l / Qlen l)%Q.

(** [groupby('SKU').agg({'Revenue': ['sum', 'mean'], 'Shipped Quantity':
    'sum'}).round(2)] with its three columns renamed. *)
Definition sku_groups (df : list order) : list sku_row :=
  (fun g : string * list order =>
     {| s_SKU := g.1;
        s_Total_Revenue := round2 (Qsum (Revenue <$> g.2));
        Avg_Revenue_per_Order := round2 (Qmean (Revenue <$> g.2));
        s_Units_Sold := round2 (Qsum (Shipped_Quantity <$> g.2)) |})
    <$> groupby String.leb SKU df.

(** Descending in the revenue. pandas leaves the order of rows of equal
    revenue to its sort; here they keep the order they had. *)
Definition revenue_desc (a b : Q) : bool := Qle_bool b a.

Definition get_sku_metrics (filtered_df : list order) : list sku_row :=
  let sku_metrics := sku_groups filtered_df in
  let sku_metrics := sort_values revenue_desc s_Total_Revenue sku_metrics in
  let totals :=
    {| s_SKU := "TOTAL";
       s_Total_Revenue := Qsum (s_Total_Revenue <$> sku_metrics);
       Avg_Revenue_per_Order :=
         if (0 <? length filtered_df)%nat
         then (Qsum (s_Total_Revenue <$> sku_metrics) / Qlen filtered_df)%Q
         else 0%Q;
       s_Units_Sold := Qsum (s_Units_Sold <$> sku_metrics) |} in
  sku_metrics ++ [totals].

(** The ordinal of a quarter label, 0 for a text that is no quarter. *)
Definition quarter_ordinal (label : string) : Z :=
  if decide (label = "Q1") then 1
  else if decide (label = "Q2") then 2
  else if decide (label = "Q3") then 3
  else if decide (label = "Q4") then 4
  else 0.

(** *** What the properties of the metrics are stated with *)

(** The labels of the four quarters. *)
Definition is_quarter (label : string) : Prop :=
  label = "Q1" \/ label = "Q2" \/ label = "Q3" \/ label = "Q4".

(** The key of a row of the grouped table. *)
Definition totals_key (t : quarter_totals) : quarter_key :=
  (t_SKU t, t_Year t, t_Quarter t).

(** The grouped table, sorted by year and quarter. *)
Definition sorted_totals (df : list order) (by_sku : bool) : list quarter_totals :=
  sort_values year_quarter_leb (fun t => (t_Year t, t_Quarter t))
              (quarterly_totals by_sku (add_quarter df)).

(** A row of the result without its growth columns. *)
Definition totals_of (r : quarterly_row) : quarter_totals :=
  {| t_SKU := q_SKU r; t_Year := q_Year r; t_Quarter := q_Quarter r;
     t_Total_Revenue := Total_Revenue r; t_Units_Sold := Units_Sold r;
     t_Unique_SKUs := Unique_SKUs r |}.

(** The partition of a row of the result: its SKU or its year. *)
Definition row_partition (by_sku : bool) (r : quarterly_row) : option string + Z :=
  growth_partition by_sku (totals_of r).

(** What [pct_change() * 100] is, given the value before. *)
Definition growth (prev : option Q) (cur : Q) : xnum := percent (pct prev cur).

(** What a growth rate is when the value before is zero. *)
Definition growth_from_zero (cur : Q) : xnum :=
  match Qsign cur with
  | Eq => NaN
  | Gt => Inf false
  | Lt => Inf true
  end.

(** ** Tables whose columns may be missing *)

(** The instant a purchase date is read as: a date and the time of the day,
    in UTC. *)
Record timestamp := mk_timestamp {
  ts_year : Z;
  ts_month : Z;
  ts_day : Z;
  ts_nanos : Z
}.

(** A value of a table. A missing value (NaN, None, NaT) is no cell. *)
Inductive cell :=
| Text (s : string)
| Number (q : Q)
| Instant (t : timestamp)
| Day (year month day : Z).

(** A row: its cells by the name of their column. *)
Abbreviation row := (gmap string cell).

Record frame := mk_frame {
  columns : list string;
  rows : list row
}.

(** [pd.DataFrame()]. *)
Definition empty_frame : frame := {| columns := []; rows := [] |}.

(** The cell of a table, by row and column. *)
Definition cell_at (df : frame) (i : nat) (col : string) : option cell :=
  r ← rows df !! i; r !! col.

(** What pandas and Python do to one value and the code relies on without
    spelling it out: the reading of a timestamp ([pd.to_datetime], [None]
    where it raises), the reading of a number ([pd.to_numeric], [None] where
    it finds none) and [str()] of a value that is no text. *)
Class Conversions := {
  to_datetime_value : cell -> option timestamp;
  to_numeric_value : cell -> option Q;
  str_value : cell -> string
}.

(** [str(v)]. *)
Definition py_str `{Conversions} (v : cell) : string :=
  match v with
  | Text s => s
  | _ => str_value v
  end.

(** The characters [str.strip()] removes, those of them that are ASCII. *)
Definition is_whitespace (c : ascii) : bool :=
  let n := nat_of_ascii c in
  ((9 <=? n) && (n <=? 13) || (28 <=? n) && (n <=? 32))%nat.

Fixpoint lstrip (s : string) : string :=
  match s with
  | String c s' => if is_whitespace c then lstrip s' else s
  | EmptyString => EmptyString
  end.

Definition rstrip (s : string) : string := String.rev (lstrip (String.rev s)).

(** [s.strip()]. *)
Definition strip (s : string) : string := rstrip (lstrip s).

(** [row[col] = value], a missing value leaving no cell. *)
Definition set_cell (col : string) (value : option cell) (r : row) : row :=
  match value with
  | Some v => <[col := v]> r
  | None => delete col r
  end.

(** [df[col] = f(row)]: a new column goes last. *)
Definition assign (col : string) (f : row -> option cell) (df : frame) : frame :=
  {| columns := if decide (col ∈ columns df) then columns df else columns df ++ [col];
     rows := (fun r => set_cell col (f r) r) <$> rows df |}.

(** [df[mask]]. *)
Definition select (keep : row -> bool) (df : frame) : frame :=
  {| columns := columns df; rows := filter (fun r => keep r = true) (rows df) |}.

(** [df.drop(col, axis=1)]. *)
Definition drop_column (col : string) (df : frame) : frame :=
  {| columns := filter (fun c => c <> col) (columns df);
     rows := delete col <$> rows df |}.

(** [pd.concat(dfs, ignore_index=True)]: the rows of the tables one after
    the other, under the columns of all of them, a column a table lacks
    being missing in its rows. *)
Definition concat (dfs : list frame) : frame :=
  {| columns := remove_dups (dfs ≫= columns); rows := dfs ≫= rows |}.

(** ** [sku_manager.py]: the mappings of the legend *)

Record SKUManager := mk_manager {
  sku_mapping : gmap string string;
  state_name_to_code : gmap string string;
  valid_state_codes : gset string
}.

(** [self.sku_mapping.get(merchant_sku, merchant_sku)]. *)
Definition map_sku (self : SKUManager) (merchant_sku : string) : string :=
  default merchant_sku (sku_mapping self !! merchant_sku).

Definition map_state `{Conversions} (self : SKUManager) (state : option cell)
  : option string :=
  match state with
  | None => None
  | Some v =>
      let mapped_state := state_name_to_code self !! strip (py_str v) in
      match mapped_state with
      | Some code =>
          if decide (code ∈ valid_state_codes self) then Some code else None
      | None => None
      end
  end.

(** [df[merchant_sku_col].map(self.sku_mapping)] on one value: the keys of the
    mapping are texts. *)
Definition series_map (mapping : gmap string string) (v : option cell) : option cell :=
  match v with
  | Some (Text s) => Text <$> mapping !! s
  | _ => None
  end.

(** [a.fillna(b)] on one value. *)
Definition fillna (a b : option cell) : option cell :=
  match a with
  | Some v => Some v
  | None => b
  end.

Definition notna (v : option cell) : bool :=
  match v with Some _ => true | None => false end.

Definition map_skus_in_df `{Conversions} (self : SKUManager) (df : frame) : frame :=
  let merchant_sku_col := "Merchant SKU" in
  let new_sku_col := "SKU" in
  if decide (merchant_sku_col ∈ columns df) then
    let df :=
      assign new_sku_col
        (fun r => fillna (series_map (sku_mapping self) (r !! merchant_sku_col))
                         (r !! merchant_sku_col)) df in
    if decide ("Shipping State" ∈ columns df /\ valid_state_codes self <> ∅) then
      let df :=
        assign "State Code"
          (fun r => Text <$> map_state self (r !! "Shipping State")) df in
      let df := select (fun r => notna (r !! "State Code")) df in
      let df := assign "Shipping State" (fun r => r !! "State Code") df in
      drop_column "State Code" df
    else df
  else df.

(** The row with its canonical SKU. *)
Definition with_sku (self : SKUManager) (r : row) : row :=
  set_cell "SKU"
    (fillna (series_map (sku_mapping self) (r !! "Merchant SKU"))
            (r !! "Merchant SKU")) r.

(** The row with the code of its state in the place of the state. *)
Definition with_state `{Conversions} (self : SKUManager) (r : row) : row :=
  delete "State Code"
    (set_cell "Shipping State" (Text <$> map_state self (r !! "Shipping State"))
       (set_cell "State Code" (Text <$> map_state self (r !! "Shipping State")) r)).

(** The filter on the states is on: the table has the column and the legend
    has state codes. *)
Definition filters_states (self : SKUManager) (df : frame) : Prop :=
  "Shipping State" ∈ columns df /\ valid_state_codes self <> ∅.

(** ** [loader.py]: reading the orders *)

(** A file of the source directory: its path and what [pd.read_csv] makes of
    it, [None] where it raises (no such encoding, no such file, rows that do
    not parse). *)
Record source_file := mk_file {
  path : string;
  read_csv : option frame
}.

(** What [st.error] shows. *)
Inductive diagnostic :=
| ErrorReadingFile (file : string)
| ErrorProcessingData
| NoCSVFiles.

(** [df[col] = pd.to_datetime(df[col], utc=True)]: a [KeyError] without the
    column; a missing value stays missing (NaT); a value that is no timestamp
    raises, [errors='raise'] being the default. *)
Definition to_datetime `{Conversions} (col : string) (df : frame) : option frame :=
  guard (col ∈ columns df);;
  rows' ← mapM (fun r : row =>
                  match r !! col with
                  | None => Some r
                  | Some v => t ← to_datetime_value v; Some (<[col := Instant t]> r)
                  end) (rows df);
  Some {| columns := columns df; rows := rows' |}.

(** [series.str.strip()] on one value: what is no text comes out missing. *)
Definition str_strip (v : option cell) : option cell :=
  match v with
  | Some (Text s) => Some (Text (strip s))
  | _ => None
  end.

(** The body of the [try] of the loop over the files. *)
Definition parse_file `{Conversions} (file : source_file) : option frame :=
  df ← read_csv file;
  df ← to_datetime "Purchase Date" df;
  let df := select (fun r => notna (r !! "Purchase Date")) df in
  guard ("Merchant SKU" ∈ columns df);;
  Some (assign "Merchant SKU" (fun r => str_strip (r !! "Merchant SKU")) df).

(** The file is skipped. *)
Definition fails `{Conversions} (file : source_file) : Prop := parse_file file = None.

(** The loop over the files: a table more for a file that parses, a
    diagnostic more for one that does not. *)
Definition read_files `{Conversions} (csv_files : list source_file)
  : list frame * list diagnostic :=
  foldl (fun (acc : list frame * list diagnostic) file =>
           match parse_file file with
           | Some df => (acc.1 ++ [df], acc.2)
           | None => (acc.1, acc.2 ++ [ErrorReadingFile (path file)])
           end)
        ([], []) csv_files.

Definition purchase_date (r : row) : option timestamp :=
  match r !! "Purchase Date" with
  | Some (Instant t) => Some t
  | _ => None
  end.

Definition month_names : list string :=
  [ "January"; "February"; "March"; "April"; "May"; "June"; "July";
    "August"; "September"; "October"; "November"; "December" ].

(** [strftime('%B')]. *)
Definition month_name (month : Z) : string :=
  default "" (month_names !! Z.to_nat (month - 1)).

(** [pd.to_numeric(series, errors='coerce').fillna(0)] on one value. *)
Definition to_numeric_or_zero `{Conversions} (v : option cell) : option cell :=
  Some (Number (default 0%Q (v ≫= to_numeric_value))).

Definition number (v : option cell) : option Q :=
  match v with
  | Some (Number q) => Some q
  | _ => None
  end.

(** [series.str.strip() != '']: true of a missing value. *)
Definition not_blank (v : option cell) : bool :=
  match v with
  | Some (Text s) => negb (String.eqb (strip s) "")
  | _ => true
  end.

(** The body of the second [try]: the merge of the tables and the derived
    columns. Reading a column that no file has is a [KeyError]. *)
Definition process `{Conversions} (dfs : list frame) : option frame :=
  let df := concat dfs in
  let df := assign "Date" (fun r =>
              (fun t => Day (ts_year t) (ts_month t) (ts_day t)) <$> purchase_date r) df in
  let df := assign "Month" (fun r =>
              (fun t => Number (inject_Z (ts_month t))) <$> purchase_date r) df in
  let df := assign "Month_Name" (fun r =>
              (fun t => Text (month_name (ts_month t))) <$> purchase_date r) df in
  let df := assign "Year" (fun r =>
              (fun t => Number (inject_Z (ts_year t))) <$> purchase_date r) df in
  guard ("Item Price" ∈ columns df);;
  let df := assign "Item Price" (fun r => to_numeric_or_zero (r !! "Item Price")) df in
  guard ("Item Promo Discount" ∈ columns df);;
  let df := assign "Item Promo Discount"
              (fun r => to_numeric_or_zero (r !! "Item Promo Discount")) df in
  let df := assign "Revenue" (fun r =>
              price ← number (r !! "Item Price");
              discount ← number (r !! "Item Promo Discount");
              Some (Number (price - discount)%Q)) df in
  guard ("Shipped Quantity" ∈ columns df);;
  let df := assign "Shipped Quantity"
              (fun r => to_numeric_or_zero (r !! "Shipped Quantity")) df in
  let df := select (fun r => notna (r !! "Year") && notna (r !! "Merchant SKU")) df in
  let df := select (fun r => not_blank (r !! "Merchant SKU")) df in
  Some df.

(** [load_data]: the table and what was shown on the way. Its cache is not
    part of the model. *)
Definition load_data `{Conversions}
    (_sku_manager : option SKUManager) (csv_files : list source_file)
  : frame * list diagnostic :=
  let (dfs, shown) := read_files csv_files in
  match dfs with
  | [] => (empty_frame, shown ++ [NoCSVFiles])
  | _ =>
      match process dfs with
      | Some df =>
          (match _sku_manager with
           | Some manager => map_skus_in_df manager df
           | None => df
           end, shown)
      | None => (empty_frame, shown ++ [ErrorProcessingData])
      end
  end.

(** ** [legend_loader.py]: the workbook of the legend *)

(** The workbook [legend/legend.xlsx]: its sheets in their order, each with
    the table [pd.read_excel] reads from it and [to_excel] writes to it. What
    a sheet holds besides its values (formats, formulas) is not modelled. *)
Abbreviation workbook := (list (string * frame)).

(** The file and the cache [st.cache_data] keeps for [load_sheet_data]: the
    result of every call so far, by sheet name. The file is [None] where it
    cannot be read. *)
Record store := mk_store {
  legend_file : option workbook;
  sheet_cache : gmap string frame
}.

Fixpoint sheet_named (name : string) (sheets : workbook) : option frame :=
  match sheets with
  | [] => None
  | sheet :: sheets' =>
      if decide (sheet.1 = name) then Some sheet.2 else sheet_named name sheets'
  end.

(** [pd.read_excel(legend_path, sheet_name=name)], [None] where it raises:
    no file to read, or no sheet of the name. *)
Definition read_excel (file : option workbook) (name : string) : option frame :=
  sheets ← file; sheet_named name sheets.

Definition column_values (df : frame) (col : string) : list (option cell) :=
  (fun r : row => r !! col) <$> rows df.

(** [astype(str)] on one value of a column of objects: a missing value is
    the text [nan]. *)
Definition astype_str `{Conversions} (v : option cell) : string :=
  match v with
  | Some c => py_str c
  | None => "nan"
  end.

(** [df[col].notna().any() and not (df[col].astype(str).str.strip() ==
    '').all()]. *)
Definition non_empty_col `{Conversions} (df : frame) (col : string) : bool :=
  existsb notna (column_values df col)
  && negb (forallb (fun v => String.eqb (strip (astype_str v)) "")
                   (column_values df col)).

Definition is_number (v : option cell) : bool :=
  match v with Some (Number _) | None => true | _ => false end.

Definition is_instant (v : option cell) : bool :=
  match v with Some (Instant _) | None => true | _ => false end.

(** [df[col].dtype == object]: the column holds more than numbers and more
    than instants. *)
Definition dtype_is_object (df : frame) (col : string) : bool :=
  negb (forallb is_number (column_values df col))
  && negb (forallb is_instant (column_values df col)).

(** [df[cols]]. *)
Definition select_columns (cols : list string) (df : frame) : frame :=
  {| columns := cols;
     rows := (fun r : row => filter (fun kv => kv.1 ∈ cols) r) <$> rows df |}.

(** The body of the [try] of [load_sheet_data], after the sheet is read. *)
Definition clean_sheet `{Conversions} (df : frame) : frame :=
  let non_empty_cols := filter (fun col => non_empty_col df col = true) (columns df) in
  let df := select_columns non_empty_cols df in
  let df :=
    foldl (fun (df : frame) col =>
             if dtype_is_object df col
             then assign col (fun r => Some (Text (strip (astype_str (r !! col))))) df
             else df)
          df (columns df) in
  select (fun r : row => negb (bool_decide (r = ∅))) df.

(** [load_sheet_data] without its cache. *)
Definition read_sheet `{Conversions} (file : option workbook) (sheet_name : string)
  : frame :=
  match read_excel file sheet_name with
  | Some df => clean_sheet df
  | None => empty_frame
  end.

(** [load_sheet_data], under [@st.cache_data]: a call with a sheet name that
    was asked before gives what that call gave. *)
Definition load_sheet_data `{Conversions} (sheet_name : string) (s : store)
  : frame * store :=
  match sheet_cache s !! sheet_name with
  | Some df => (df, s)
  | None =>
      let df := read_sheet (legend_file s) sheet_name in
      (df, {| legend_file := legend_file s;
              sheet_cache := <[sheet_name := df]> (sheet_cache s) |})
  end.

(** How the writing of the workbook ends: well, or with an exception that
    leaves the file as [remains]. *)
Inductive write_outcome :=
| Written
| WriteFails (remains : option workbook).

(** [save_sheet_data]: the other sheets are read, and the workbook is
    written anew with the sheet first and the others after it. *)
Definition save_sheet_data (df : frame) (sheet_name : string)
    (outcome : write_outcome) (s : store) : bool * store :=
  match legend_file s with
  | None => (false, s)
  | Some sheets =>
      let all_sheets :=
        filter (fun sheet : string * frame => sheet.1 <> sheet_name) sheets in
      match outcome with
      | Written =>
          (true, {| legend_file := Some ((sheet_name, df) :: all_sheets);
                    sheet_cache := sheet_cache s |})
      | WriteFails remains =>
          (false, {| legend_file := remains; sheet_cache := sheet_cache s |})
      end
  end.

(** ** More of [helpers.py] *)

(** [calendar.month_name]: thirteen names, the first of them empty. *)
Definition calendar_month_name : list string := "" :: month_names.

(** [l[i]] of Python: an index below zero counts from the end, and [None] is
    the [IndexError]. *)
Definition py_index {A} (l : list A) (i : Z) : option A :=
  if (0 <=? i)%Z then l !! Z.to_nat i
  else if (- Z.of_nat (length l) <=? i)%Z
       then l !! Z.to_nat (Z.of_nat (length l) + i)
       else None.

(** [get_month_name], of an integer. *)
Definition get_month_name (month_num : Z) : string :=
  if (month_num =? 0)%Z then "All"
  else default "Unknown" (py_index calendar_month_name month_num).

(** [series == text] on one value of a column of objects, where what is no
    text equals no text. *)
Definition eq_text (v : option cell) (s : string) : bool :=
  match v with
  | Some (Text t) => bool_decide (t = s)
  | _ => false
  end.

(** [series == n] on one value, [n] an integer. *)
Definition eq_int (v : option cell) (n : Z) : bool :=
  match v with
  | Some (Number q) => Qeq_bool q (inject_Z n)
  | _ => false
  end.

(** [df[df[col] == value]], a [KeyError] without the column. *)
Definition where_column (col : string) (test : option cell -> bool) (df : frame)
  : option frame :=
  guard (col ∈ columns df);;
  Some (select (fun r => test (r !! col)) df).

(** [filter_dataframe]: ['All'] and [0] select everything. *)
Definition filter_dataframe (df : frame) (selected_sku : string)
    (selected_month selected_year : Z) (selected_state : string) : option frame :=
  let filtered_df := df in
  filtered_df ←
    (if bool_decide (selected_sku <> "All")
     then where_column "SKU" (fun v => eq_text v selected_sku) filtered_df
     else Some filtered_df);
  filtered_df ←
    (if bool_decide (selected_month <> 0)
     then where_column "Month" (fun v => eq_int v selected_month) filtered_df
     else Some filtered_df);
  filtered_df ←
    (if bool_decide (selected_year <> 0)
     then where_column "Year" (fun v => eq_int v selected_year) filtered_df
     else Some filtered_df);
  filtered_df ←
    (if bool_decide (selected_state <> "All")
     then where_column "Shipping State" (fun v => eq_text v selected_state) filtered_df
     else Some filtered_df);
  Some filtered_df.

(** The rows [filter_dataframe] is to keep. *)
Definition selected (selected_sku : string) (selected_month selected_year : Z)
    (selected_state : string) (r : row) : Prop :=
  (selected_sku <> "All" -> eq_text (r !! "SKU") selected_sku = true) /\
  (selected_month <> 0 -> eq_int (r !! "Month") selected_month = true) /\
  (selected_year <> 0 -> eq_int (r !! "Year") selected_year = true) /\
  (selected_state <> "All" -> eq_text (r !! "Shipping State") selected_state = true).

#[global] Instance selected_dec selected_sku selected_month selected_year selected_state r :
  Decision (selected selected_sku selected_month selected_year selected_state r).
Proof. unfold selected. apply _. Defined.

(** The columns [filter_dataframe] reads. *)
Definition columns_read (selected_sku : string) (selected_month selected_year : Z)
    (selected_state : string) : list string :=
  (if bool_decide (selected_sku <> "All") then ["SKU"] else [])
  ++ (if bool_decide (selected_month <> 0) then ["Month"] else [])
  ++ (if bool_decide (selected_year <> 0) then ["Year"] else [])
  ++ (if bool_decide (selected_state <> "All") then ["Shipping State"] else []).

(** A row of the unified table with its calendar date, as year, month and
    day. *)
Record dated_order := mk_dated {
  placed : order;
  Date : Z * Z * Z
}.

(** A row of the result of [get_daily_sales_by_year]. *)
Record daily_sales := mk_daily {
  d_Year : Z;
  d_Date : Z * Z * Z;
  d_Revenue : Q;
  d_Shipped_Quantity : Q
}.

Definition date_compare (a b : Z * Z * Z) : comparison :=
  lex (Z.compare a.1.1 b.1.1) (lex (Z.compare a.1.2 b.1.2) (Z.compare a.2 b.2)).

Definition year_date_leb (a b : Z * (Z * Z * Z)) : bool :=
  comparison_leb (lex (Z.compare a.1 b.1) (date_compare a.2 b.2)).

Definition daily_key (d : daily_sales) : Z * (Z * Z * Z) := (d_Year d, d_Date d).

Definition get_daily_sales_by_year (filtered_df : list dated_order) : list daily_sales :=
  sort_values year_date_leb daily_key
    ((fun g : Z * (Z * Z * Z) * list dated_order =>
        {| d_Year := g.1.1;
           d_Date := g.1.2;
           d_Revenue := Qsum ((fun o => Revenue (placed o)) <$> g.2);
           d_Shipped_Quantity := Qsum ((fun o => Shipped_Quantity (placed o)) <$> g.2) |})
       <$> groupby year_date_leb (fun o => (Year (placed o), Date o)) filtered_df).

(** The key of a row of the quarterly metrics. *)
Definition row_key (r : quarterly_row) : quarter_key :=
  (q_SKU r, q_Year r, q_Quarter r).

(** ** More of [loader.py] *)

Definition dark_colors : list string :=
  [ "#1f77b4"; "#d62728"; "#2ca02c"; "#9467bd"; "#8c564b"; "#e377c2" ].

(** [{key: value for key, value in pairs}]: of two values of a key the later
    stays. *)
Definition dict_of {K V} `{Countable K} (pairs : list (K * V)) : gmap K V :=
  foldl (fun (d : gmap K V) kv => <[kv.1 := kv.2]> d) ∅ pairs.

(** [sorted(df['Year'].unique())]. *)
Definition all_years (df : list order) : list Z :=
  sort_values Z.leb id (remove_dups (Year <$> df)).

Definition get_year_colors (df : list order) : gmap Z string :=
  dict_of (zip (all_years df) (take (length (all_years df)) dark_colors)).

(** [hashlib.md5] of a text, as the hexadecimal digest. *)
Class Digest := { md5_hexdigest : string -> string }.

(** [os.stat] of a file: the time of its last change, as [str()] renders it,
    and its size. *)
Record file_stat := mk_stat {
  st_mtime : string;
  st_size : Z
}.

(** A path [glob.glob] finds and what [os.stat] gives for it, [None] where
    it raises. *)
Record listed_file := mk_listed {
  file_path : string;
  os_stat : option file_stat
}.

(** What a file adds to the hash: nothing where [os.stat] raises. *)
Definition hash_update (file : listed_file) : string :=
  match os_stat file with
  | Some stats =>
      file_path file +:+ ":" +:+ st_mtime stats +:+ ":" +:+ pretty (st_size stats)
  | None => ""
  end.

Fixpoint join (pieces : list string) : string :=
  match pieces with
  | [] => ""
  | piece :: pieces' => piece +:+ join pieces'
  end.

(** [get_source_files_hash]: [source_exists] says whether the directory is
    there, [found] is what [glob.glob] gives. *)
Definition get_source_files_hash `{Digest} (source_exists : bool)
    (found : list listed_file) : option string :=
  if source_exists
  then let csv_files := sort_values String.leb file_path found in
       Some (md5_hexdigest (join (hash_update <$> csv_files)))
  else None.

(** What [load_data] leaves in every row of its table. *)
Definition loaded_row (r : row) : Prop :=
  (exists t, purchase_date r = Some t /\
     r !! "Date" = Some (Day (ts_year t) (ts_month t) (ts_day t)) /\
     r !! "Month" = Some (Number (inject_Z (ts_month t))) /\
     r !! "Month_Name" = Some (Text (month_name (ts_month t))) /\
     r !! "Year" = Some (Number (inject_Z (ts_year t)))) /\
  (exists price discount,
     r !! "Item Price" = Some (Number price) /\
     r !! "Item Promo Discount" = Some (Number discount) /\
     r !! "Revenue" = Some (Number (price - discount)%Q)) /\
  (exists quantity, r !! "Shipped Quantity" = Some (Number quantity)) /\
  (exists sku, r !! "Merchant SKU" = Some (Text sku) /\ strip sku <> "").

(** The columns [load_data] reads as numbers. *)
Definition numeric_columns : list string :=
  [ "Item Price"; "Item Promo Discount"; "Shipped Quantity" ].



(** The rows of the files that reach the table of [load_data]: a row with a
    purchase date and a merchant SKU that is not blank and, where the manager
    filters by the state, a state of the legend. *)
Definition reaches_table `{Conversions} (_sku_manager : option SKUManager)
    (dfs : list frame) (r : row) : Prop :=
  is_Some (purchase_date r) /\
  notna (r !! "Merchant SKU") = true /\
  not_blank (r !! "Merchant SKU") = true /\
  match _sku_manager with
  | Some self =>
      filters_states self (concat dfs) ->
      is_Some (map_state self (r !! "Shipping State"))
  | None => True
  end.

#[global] Instance reaches_table_dec `{Conversions} _sku_manager dfs r :
  Decision (reaches_table _sku_manager dfs r).
Proof. unfold reaches_table, filters_states. destruct _sku_manager; apply _. Defined.

(** ** More of [sku_manager.py] *)

(** [c.lower()] of an ASCII character. *)
Definition lower_ascii (c : ascii) : ascii :=
  let n := nat_of_ascii c in
  if ((65 <=? n) && (n <=? 90))%nat then ascii_of_nat (n + 32) else c.

(** [s.lower()], on the ASCII letters. Of the characters beyond ASCII only
    the Kelvin sign becomes an ASCII letter, a [k], which no name of the
    state sheet holds. *)
Fixpoint lower (s : string) : string :=
  match s with
  | EmptyString => EmptyString
  | String c s' => String (lower_ascii c) (lower s')
  end.

Definition state_sheet_variants : list string :=
  [ "us state"; "US State"; "US STATE"; "us_state"; "USState"; "State" ].

(** [any(variant.lower() == sheet.lower() for variant in
    state_sheet_variants)]. *)
Definition is_state_sheet (sheet : string) : Prop :=
  Exists (fun variant => lower variant = lower sheet) state_sheet_variants.

Fixpoint _find_state_sheet (available_sheets : list string) : option string :=
  match available_sheets with
  | [] => None
  | sheet :: sheets =>
      if decide (is_state_sheet sheet) then Some sheet else _find_state_sheet sheets
  end.

(** [sorted(list(self.valid_state_codes))]. *)
Definition get_valid_states (self : SKUManager) : list string :=
  sort_values String.leb id (elements (valid_state_codes self)).

(** ** More of [legend_loader.py] *)

(** A call of one of the two functions of the workbook. *)
Inductive legend_call :=
| SaveSheet (df : frame) (sheet_name : string) (outcome : write_outcome)
| LoadSheet (sheet_name : string).

(** The store after a call. *)
Definition after_call `{Conversions} (s : store) (call : legend_call) : store :=
  match call with
  | SaveSheet df sheet_name outcome => (save_sheet_data df sheet_name outcome s).2
  | LoadSheet sheet_name => (load_sheet_data sheet_name s).2
  end.

(** ** Tables of the examples *)

(** Three quarters of 2023, the last of them without revenue, and two of
    2024, of two SKUs. *)
Definition two_years : list order :=
  [ mk_order 2023 1 "AB-1" 100 1; mk_order 2023 5 "AB-1" 150 2;
    mk_order 2023 11 "CD-2" 0 0; mk_order 2024 2 "CD-2" 80 1;
    mk_order 2024 4 "AB-1" 5 3 ].

(** Conversions that read the timestamps and the numbers of the examples
    and nothing else. *)
Definition sample_conversions : Conversions :=
  {| to_datetime_value := fun v =>
       match v with
       | Text "2023-01-15T00:00:00Z" => Some (mk_timestamp 2023 1 15 0)
       | Text "2023-04-20T00:00:00Z" => Some (mk_timestamp 2023 4 20 0)
       | Instant t => Some t
       | _ => None
       end;
     to_numeric_value := fun v =>
       match v with
       | Number q => Some q
       | Text "10.00" => Some 10%Q
       | Text "2.00" => Some 2%Q
       | Text "5.00" => Some 5%Q
       | Text "0" => Some 0%Q
       | Text "1" => Some 1%Q
       | Text "2" => Some 2%Q
       | _ => None
       end;
     str_value := fun _ => "" |}.

(** The legend of the scenario of the specification. *)
Definition legend : SKUManager :=
  {| sku_mapping := {[ "AB-1" := "WIDGET-A" ]};
     state_name_to_code :=
       {[ "California" := "CA"; "CA" := "CA"; "New York" := "NY"; "NY" := "NY" ]};
     valid_state_codes := {[ "CA"; "NY" ]} |}.

Definition order_row (sku ts price discount qty state : string) : row :=
  {[ "Merchant SKU" := Text sku; "Purchase Date" := Text ts;
     "Item Price" := Text price; "Item Promo Discount" := Text discount;
     "Shipped Quantity" := Text qty; "Shipping State" := Text state ]}.

Definition order_columns : list string :=
  [ "Merchant SKU"; "Purchase Date"; "Item Price"; "Item Promo Discount";
    "Shipped Quantity"; "Shipping State" ].

Definition january : source_file :=
  {| path := "source/january.csv";
     read_csv := Some {| columns := order_columns;
                         rows := [ order_row "AB-1" "2023-01-15T00:00:00Z"
                                             "10.00" "2.00" "1" "CA" ] |} |}.

Definition april : source_file :=
  {| path := "source/april.csv";
     read_csv := Some {| columns := order_columns;
                         rows := [ order_row "AB-1" "2023-04-20T00:00:00Z"
                                             "5.00" "0" "2" "ZZ" ] |} |}.

(** A file of two orders, the second with a timestamp that is none. *)
Definition one_bad_timestamp : source_file :=
  {| path := "source/mixed.csv";
     read_csv := Some {| columns := order_columns;
                         rows := [ order_row "AB-1" "2023-01-15T00:00:00Z"
                                             "10.00" "2.00" "1" "CA";
                                   order_row "AB-1" "yesterday"
                                             "5.00" "0" "2" "NY" ] |} |}.

(** A file of two orders, the second without a timestamp. *)
Definition one_missing_timestamp : source_file :=
  {| path := "source/gap.csv";
     read_csv := Some {| columns := order_columns;
                         rows := [ order_row "AB-1" "2023-01-15T00:00:00Z"
                                             "10.00" "2.00" "1" "CA";
                                   delete "Purchase Date"
                                     (order_row "AB-1" "" "5.00" "0" "2" "NY") ] |} |}.

Definition unreadable : source_file :=
  {| path := "source/broken.csv"; read_csv := None |}.

(** A sheet of SKUs, before and after an edit of its one row. *)
Definition sku_sheet (sku : string) : frame :=
  {| columns := ["Merchant SKU"; "SKU"];
     rows := [ {[ "Merchant SKU" := Text "AB-1"; "SKU" := Text sku ]} ] |}.

Definition states_sheet : frame :=
  {| columns := ["State Code"; "State Name"];
     rows := [ {[ "State Code" := Text "CA"; "State Name" := Text " California" ]};
               {[ "State Code" := Text "NY"; "State Name" := Text "New York" ]} ] |}.

(** A sheet with a cell left empty in a column of texts. *)
Definition sheet_with_gap : frame :=
  {| columns := ["Merchant SKU"; "SKU"];
     rows := [ {[ "Merchant SKU" := Text "AB-1"; "SKU" := Text "WIDGET-A" ]};
               {[ "Merchant SKU" := Text "CD-2" ]} ] |}.

Definition legend_store : store :=
  {| legend_file := Some [("US State", states_sheet); ("Amazon", sku_sheet "WIDGET-A")];
     sheet_cache := ∅ |}.

(** The two orders of the scenario in one table, and a table that lacks the
    column of the merchant SKU. *)
Definition two_orders : frame :=
  {| columns := order_columns;
     rows := [ order_row "AB-1" "2023-01-15T00:00:00Z" "10.00" "2.00" "1" "CA";
               order_row "XY-9" "2023-04-20T00:00:00Z" "5.00" "0" "2" "ZZ" ] |}.

Definition states_only : frame :=
  {| columns := ["Shipping State"];
     rows := [ {[ "Shipping State" := Text "ZZ" ]} ] |}.

(** A file whose orders have no price. *)
Definition no_price : source_file :=
  {| path := "source/no_price.csv";
     read_csv := Some {| columns := [ "Merchant SKU"; "Purchase Date";
                                      "Item Promo Discount"; "Shipped Quantity" ];
                         rows := [ delete "Item Price"
                                     (order_row "AB-1" "2023-01-15T00:00:00Z"
                                                "10.00" "2.00" "1" "CA") ] |} |}.

(** A digest for the examples: the text itself. *)
Definition sample_digest : Digest := {| md5_hexdigest := fun s => s |}.

(** * Properties *)

(** ** Facts on sorting and grouping *)

Section SortingFacts.
Context {A K : Type} (leb : K -> K -> bool) (key : A -> K).

Local Abbreviation by_key := (key_le leb key).

Lemma insert_by_Permutation x l : insert_by leb key x l ≡ₚ x :: l.
Proof.
  induction l as [|y l IH]; simpl; [done|].
  destruct (leb (key x) (key y)); [done|].
  rewrite IH. apply Permutation_swap.
Qed.

Lemma sort_values_Permutation l : sort_values leb key l ≡ₚ l.
Proof.
  induction l as [|x l IH]; simpl; [done|].
  by rewrite insert_by_Permutation, IH.
Qed.

Lemma sort_values_length l : length (sort_values leb key l) = length l.
Proof. by rewrite sort_values_Permutation. Qed.

Lemma elem_of_sort_values x l : x ∈ sort_values leb key l <-> x ∈ l.
Proof. by rewrite sort_values_Permutation. Qed.

Hypothesis leb_total : forall x y, leb x y = false -> leb y x = true.

Lemma insert_by_HdRel a x l :
  by_key a x -> HdRel by_key a l -> HdRel by_key a (insert_by leb key x l).
Proof.
  intros Hax Hal. destruct l as [|y l]; simpl.
  - by constructor.
  - destruct (leb (key x) (key y)); constructor; [done|].
    by inversion Hal.
Qed.

Lemma insert_by_Sorted x l :
  Sorted by_key l -> Sorted by_key (insert_by leb key x l).
Proof.
  induction l as [|y l IH]; simpl; intros Hl.
  - repeat constructor.
  - destruct (leb (key x) (key y)) eqn:Hxy.
    + constructor; [done|]. by constructor.
    + inversion Hl as [|? ? Hs Hh]; subst.
      constructor; [by apply IH|].
      apply insert_by_HdRel; [|done]. by apply leb_total.
Qed.

Lemma sort_values_Sorted l : Sorted by_key (sort_values leb key l).
Proof.
  induction l as [|x l IH]; simpl; [constructor|].
  by apply insert_by_Sorted.
Qed.

Hypothesis leb_trans :
  forall x y z, leb x y = true -> leb y z = true -> leb x z = true.

Lemma sort_values_StronglySorted l :
  StronglySorted by_key (sort_values leb key l).
Proof.
  apply Sorted.Sorted_StronglySorted; [|apply sort_values_Sorted].
  intros a b c. apply leb_trans.
Qed.
End SortingFacts.

Lemma Sorted_lookup_next {A} (R : A -> A -> Prop) (l : list A) i a b :
  Sorted R l -> l !! i = Some a -> l !! S i = Some b -> R a b.
Proof.
  intros Hl. revert i. induction Hl as [|x l Hs IH Hh]; intros i Ha Hb; [done|].
  destruct i as [|i]; simpl in *.
  - injection Ha as ->. destruct l as [|y l]; [done|].
    injection Hb as ->. by inversion Hh.
  - by eapply IH.
Qed.

Lemma StronglySorted_lookup_lt {A} (R : A -> A -> Prop) (l : list A) i j a b :
  StronglySorted R l -> (i < j)%nat -> l !! i = Some a -> l !! j = Some b -> R a b.
Proof.
  intros Hl. revert i j.
  induction Hl as [|x l Hs IH Hall]; intros i j Hij Ha Hb; [done|].
  destruct j as [|j]; [lia|]. destruct i as [|i]; simpl in *.
  - injection Ha as ->. rewrite Forall_forall in Hall.
    apply Hall. by eapply list_elem_of_lookup_2.
  - eapply IH; [|done..]. lia.
Qed.

Section GroupingFacts.
Context {A K : Type} `{EqDecision K} (leb : K -> K -> bool) (key : A -> K).

Lemma groupby_keys df :
  (groupby leb key df).*1 ≡ₚ remove_dups (key <$> df).
Proof.
  unfold groupby. rewrite <- list_fmap_compose.
  erewrite (list_fmap_ext _ id); [|done].
  rewrite list_fmap_id. apply sort_values_Permutation.
Qed.

Lemma groupby_NoDup df : NoDup (groupby leb key df).*1.
Proof. rewrite groupby_keys. apply NoDup_remove_dups. Qed.

Lemma elem_of_groupby k rows df :
  (k, rows) ∈ groupby leb key df ->
  k ∈ key <$> df /\ rows = filter (fun r => key r = k) df.
Proof.
  unfold groupby. intros (k' & [= -> ->] & Hk)%list_elem_of_fmap.
  split; [|done].
  apply elem_of_sort_values in Hk. by rewrite elem_of_remove_dups in Hk.
Qed.
End GroupingFacts.

Section GroupPctChangeFacts.
Context {A K : Type} `{Countable K} (key : A -> K) (val : A -> Q).

Local Abbreviation previous := (previous_in_group key).

Lemma pct_change_from_length seen l :
  length (pct_change_from key val seen l) = length l.
Proof. revert seen. induction l; intros; simpl; [done|]. by rewrite IHl. Qed.

Lemma pct_change_from_lookup seen l i r :
  l !! i = Some r ->
  pct_change_from key val seen l !! i =
    Some (pct (match previous (take i l) r with
               | Some p => Some (val p)
               | None => seen !! key r
               end) (val r)).
Proof.
  revert seen i. induction l as [|a l IH]; intros seen i Hi; [done|].
  destruct i as [|i]; simpl in *.
  - by injection Hi as ->.
  - rewrite (IH _ _ Hi). do 2 f_equal.
    unfold previous. rewrite filter_cons.
    destruct (decide (key a = key r)) as [Heq|Hne].
    + rewrite last_cons.
      destruct (last (filter _ (take i l))); [done|].
      by rewrite <- Heq, lookup_insert_eq.
    + destruct (last (filter _ (take i l))); [done|].
      by rewrite lookup_insert_ne.
Qed.

Lemma group_pct_change_lookup l i r :
  l !! i = Some r ->
  group_pct_change key val l !! i =
    Some (pct (val <$> previous (take i l) r) (val r)).
Proof.
  intros Hi. unfold group_pct_change.
  rewrite (pct_change_from_lookup _ _ _ _ Hi), lookup_empty.
  by destruct (previous _ _).
Qed.
End GroupPctChangeFacts.

Lemma filter_fmap_comm {A B} (f : A -> B) (P : B -> Prop)
    `{!forall y, Decision (P y)} (l : list A) :
  filter P (f <$> l) = f <$> filter (fun x => P (f x)) l.
Proof.
  induction l as [|x l IH]; [done|].
  rewrite fmap_cons, !filter_cons, IH.
  by destruct (decide (P (f x))).
Qed.

(** ** Facts on the quarterly metrics *)

Lemma comparison_leb_string a b :
  comparison_leb (String.compare a b) = String.leb a b.
Proof. unfold String.leb. by destruct (String.compare a b). Qed.

Lemma year_quarter_leb_spec (a b : Z * string) :
  year_quarter_leb a b = true <->
  a.1 < b.1 \/ (a.1 = b.1 /\ String.le a.2 b.2).
Proof.
  unfold year_quarter_leb, lex, String.le.
  destruct (Z.compare_spec a.1 b.1) as [Heq|Hlt|Hgt].
  - rewrite comparison_leb_string, Is_true_true. split; [auto|].
    intros [?|[_ ?]]; [lia|done].
  - simpl. split; [auto|done].
  - simpl. split; [done|]. intros [?|[? _]]; lia.
Qed.

Lemma year_quarter_leb_total a b :
  year_quarter_leb a b = false -> year_quarter_leb b a = true.
Proof.
  intros Hab. apply year_quarter_leb_spec.
  apply not_true_iff_false in Hab. rewrite year_quarter_leb_spec in Hab.
  destruct (Z.lt_trichotomy a.1 b.1) as [?|[Heq|?]]; [tauto| |tauto].
  right. split; [done|].
  destruct (total String.le a.2 b.2); [tauto|done].
Qed.

Lemma year_quarter_leb_trans a b c :
  year_quarter_leb a b = true -> year_quarter_leb b c = true ->
  year_quarter_leb a c = true.
Proof.
  rewrite !year_quarter_leb_spec.
  intros [?|[? Hab]] [?|[? Hbc]]; [left; lia..|].
  right. split; [lia|]. by etrans.
Qed.

Lemma quarter_label_is_quarter m : 1 <= m <= 12 -> is_quarter (quarter_label m).
Proof.
  intros Hm. unfold is_quarter.
  assert (m = 1 \/ m = 2 \/ m = 3 \/ m = 4 \/ m = 5 \/ m = 6 \/ m = 7 \/
          m = 8 \/ m = 9 \/ m = 10 \/ m = 11 \/ m = 12) as Hcases by lia.
  repeat (destruct Hcases as [->|Hcases]; [vm_compute; tauto|]).
  subst m. vm_compute. tauto.
Qed.

Lemma quarter_label_ordinal m :
  1 <= m <= 12 -> quarter_ordinal (quarter_label m) = (m - 1) `div` 3 + 1.
Proof.
  intros Hm.
  assert (m = 1 \/ m = 2 \/ m = 3 \/ m = 4 \/ m = 5 \/ m = 6 \/ m = 7 \/
          m = 8 \/ m = 9 \/ m = 10 \/ m = 11 \/ m = 12) as Hcases by lia.
  repeat (destruct Hcases as [->|Hcases]; [by vm_compute|]).
  subst m. by vm_compute.
Qed.

Lemma quarter_ordinal_range label :
  is_quarter label -> 1 <= quarter_ordinal label <= 4.
Proof. intros [-> | [-> | [-> | ->] ] ]; vm_compute; split; discriminate. Qed.

(** On the labels of the quarters the order of the texts is the order of the
    ordinals. *)
Lemma quarter_le_ordinal a b :
  is_quarter a -> is_quarter b ->
  String.le a b <-> quarter_ordinal a <= quarter_ordinal b.
Proof.
  intros [-> | [-> | [-> | ->] ] ] [-> | [-> | [-> | ->] ] ]; vm_compute; split;
    first [done | intros _; discriminate | intros H; by destruct H ].
Qed.

Lemma quarter_le_Q1 a : is_quarter a -> String.le a "Q1" -> a = "Q1".
Proof. intros [-> | [-> | [-> | ->] ] ]; [done|by vm_compute..]. Qed.

Lemma quarterly_totals_keys by_sku df :
  totals_key <$> quarterly_totals by_sku df =
  (groupby quarter_key_leb (group_cols by_sku) df).*1.
Proof.
  unfold quarterly_totals. rewrite <- list_fmap_compose.
  apply list_fmap_ext. by intros ? [[[] ?] ?] ?.
Qed.

Lemma sorted_totals_NoDup df by_sku : NoDup (totals_key <$> sorted_totals df by_sku).
Proof.
  unfold sorted_totals. rewrite sort_values_Permutation, quarterly_totals_keys.
  apply groupby_NoDup.
Qed.

Lemma elem_of_sorted_totals df by_sku t :
  t ∈ sorted_totals df by_sku ->
  exists o, o ∈ df /\ t_Year t = Year o /\ t_Quarter t = quarter_label (Month o)
            /\ t_SKU t = (if by_sku then Some (SKU o) else None).
Proof.
  unfold sorted_totals. rewrite elem_of_sort_values.
  intros Ht. apply (list_elem_of_fmap_2 totals_key) in Ht.
  rewrite quarterly_totals_keys, groupby_keys, elem_of_remove_dups in Ht.
  apply list_elem_of_fmap in Ht as ([o q] & Hk & Ho).
  unfold add_quarter in Ho. apply list_elem_of_fmap in Ho as (o' & [= -> ->] & Ho).
  exists o'. unfold totals_key, group_cols in Hk. simpl in Hk.
  by injection Hk as -> -> ->.
Qed.

Lemma quarterly_metrics_totals df by_sku :
  totals_of <$> calculate_quarterly_metrics df by_sku = sorted_totals df by_sku.
Proof.
  unfold calculate_quarterly_metrics. fold (sorted_totals df by_sku).
  apply fmap_zip_with_l; [by intros [] []|].
  rewrite length_zip, !length_fmap. unfold group_pct_change.
  rewrite !pct_change_from_length. lia.
Qed.

Lemma quarterly_metrics_lookup df by_sku i r :
  calculate_quarterly_metrics df by_sku !! i = Some r ->
  exists t,
    sorted_totals df by_sku !! i = Some t /\
    r = with_growth t
          (percent (pct (t_Total_Revenue <$>
                           previous_in_group (growth_partition by_sku)
                             (take i (sorted_totals df by_sku)) t)
                        (t_Total_Revenue t)))
          (percent (pct (t_Units_Sold <$>
                           previous_in_group (growth_partition by_sku)
                             (take i (sorted_totals df by_sku)) t)
                        (t_Units_Sold t))).
Proof.
  unfold calculate_quarterly_metrics. fold (sorted_totals df by_sku).
  intros (t & [g1 g2] & Hr & Ht & Hg)%lookup_zip_with_Some. subst r.
  apply lookup_zip_Some in Hg as [Hg1 Hg2]. exists t. split; [done|].
  rewrite list_lookup_fmap, (group_pct_change_lookup _ _ _ _ _ Ht) in Hg1.
  rewrite list_lookup_fmap, (group_pct_change_lookup _ _ _ _ _ Ht) in Hg2.
  simpl in *. by injection Hg1 as <-; injection Hg2 as <-.
Qed.

Lemma previous_in_group_fmap {A B K} `{EqDecision K}
    (f : A -> B) (key : B -> K) (pre : list A) (r : A) :
  previous_in_group key (f <$> pre) (f r) =
  f <$> previous_in_group (fun x => key (f x)) pre r.
Proof.
  unfold previous_in_group.
  by rewrite (filter_fmap_comm f (fun p => key p = key (f r))), fmap_last.
Qed.

Lemma quarterly_growth_lookup df by_sku i r :
  calculate_quarterly_metrics df by_sku !! i = Some r ->
  let prev := previous_in_group (row_partition by_sku)
                (take i (calculate_quarterly_metrics df by_sku)) r in
  Revenue_Growth r = growth (Total_Revenue <$> prev) (Total_Revenue r) /\
  Units_Growth r = growth (Units_Sold <$> prev) (Units_Sold r).
Proof.
  intros Hr. destruct (quarterly_metrics_lookup _ _ _ _ Hr) as (t & Ht & Heq).
  assert (totals_of r = t) as Hrt by (by subst r; destruct t).
  pose proof (previous_in_group_fmap totals_of (growth_partition by_sku)
                (take i (calculate_quarterly_metrics df by_sku)) r) as Hprev.
  rewrite fmap_take, quarterly_metrics_totals, Hrt in Hprev.
  fold (row_partition by_sku) in Hprev.
  rewrite Hprev, <- !option_fmap_compose in Heq.
  pose proof (f_equal Revenue_Growth Heq) as Hrev.
  pose proof (f_equal Units_Growth Heq) as Hunits.
  simpl in Hrev, Hunits. rewrite <- Hrt in Hrev, Hunits. by split.
Qed.

(** Over a value that is not zero the growth is the change in percent of
    that value. *)
Lemma growth_of_nonzero prev cur :
  ~ (prev == 0)%Q ->
  exists q, growth (Some prev) cur = Fin q /\
            (q == (cur - prev) / prev * 100)%Q.
Proof.
  intros Hnz. exists ((cur / prev - 1) * 100)%Q. split.
  - unfold growth, percent, pct, xdiv, Qsign. simpl.
    destruct (prev ?= 0)%Q eqn:Hc; [|done..].
    by apply Qeq_alt in Hc.
  - by field.
Qed.

Lemma first_quarter_opens_partition df i t :
  Forall (fun o => 1 <= Month o <= 12) df ->
  sorted_totals df false !! i = Some t ->
  t_Quarter t = "Q1" ->
  previous_in_group (growth_partition false) (take i (sorted_totals df false)) t = None.
Proof.
  intros Hmonths Ht HQ1.
  destruct (previous_in_group _ _ _) as [p|] eqn:Hp; [exfalso|done].
  unfold previous_in_group in Hp. apply last_Some_elem_of in Hp.
  apply list_elem_of_filter in Hp as [Hyear Hp]. injection Hyear as Hyear.
  apply list_elem_of_lookup in Hp as [j Hj].
  apply lookup_take_Some in Hj as [Hj Hlt].
  pose proof (StronglySorted_lookup_lt _ _ _ _ _ _
    (sort_values_StronglySorted year_quarter_leb _ year_quarter_leb_total
       year_quarter_leb_trans _) Hlt Hj Ht) as Hle.
  apply year_quarter_leb_spec in Hle. simpl in Hle.
  destruct Hle as [?|[_ Hle]]; [lia|].
  destruct (elem_of_sorted_totals df false p) as (o & Ho & _ & Hq & Hsku);
    [by eapply list_elem_of_lookup_2|].
  destruct (elem_of_sorted_totals df false t) as (_ & _ & _ & _ & Hsku');
    [by eapply list_elem_of_lookup_2|].
  rewrite Forall_forall in Hmonths.
  rewrite HQ1 in Hle. apply quarter_le_Q1 in Hle;
    [|rewrite Hq; by apply quarter_label_is_quarter, Hmonths].
  assert (totals_key p = totals_key t) as Hkey.
  { unfold totals_key. by rewrite Hyear, Hle, HQ1, Hsku, Hsku'. }
  assert (j = i); [|lia].
  eapply (NoDup_lookup _ _ _ (totals_key t) (sorted_totals_NoDup df false)).
  - by rewrite list_lookup_fmap, Hj, <- Hkey.
  - by rewrite list_lookup_fmap, Ht.
Qed.

(** The last element of a list that has a property, and what follows it. *)
Lemma last_filter_Some {A} (P : A -> Prop) `{!forall x, Decision (P x)}
    (l : list A) (p : A) :
  last (filter P l) = Some p ->
  exists j, l !! j = Some p /\ P p /\
            forall k q, (j < k)%nat -> l !! k = Some q -> ~ P q.
Proof.
  induction l as [|x l IH] using rev_ind; [done|].
  rewrite filter_app, filter_cons, filter_nil.
  destruct (decide (P x)) as [Hx|Hx].
  - rewrite last_snoc. intros [= ->]. exists (length l).
    split; [by rewrite list_lookup_middle|]. split; [done|].
    intros k q Hk Hq. apply lookup_lt_Some in Hq.
    rewrite length_app in Hq. simpl in Hq. lia.
  - rewrite app_nil_r. intros (j & Hj & Hp & Hafter)%IH.
    exists j. split; [by apply lookup_app_l_Some|]. split; [done|].
    intros k q Hk Hq.
    destruct (decide (k < length l)%nat) as [Hlt|Hge].
    + rewrite lookup_app_l in Hq by done. by eapply Hafter.
    + assert (k = length l) as ->.
      { apply lookup_lt_Some in Hq. rewrite length_app in Hq. simpl in Hq. lia. }
      rewrite list_lookup_middle in Hq by done. by injection Hq as <-.
Qed.

Lemma last_filter_None {A} (P : A -> Prop) `{!forall x, Decision (P x)}
    (l : list A) :
  last (filter P l) = None -> forall q, q ∈ l -> ~ P q.
Proof.
  intros Hlast q Hq HP. apply last_None in Hlast.
  assert (q ∈ filter P l) as Hin by by apply list_elem_of_filter.
  rewrite Hlast in Hin. by apply elem_of_nil in Hin.
Qed.

(** A row of the metrics holds the sums of the orders of its key, and its
    key has an order. *)
Lemma quarterly_metrics_row_totals df by_sku r :
  r ∈ calculate_quarterly_metrics df by_sku ->
  let orders :=
    filter (fun o => group_cols by_sku (o, quarter_label (Month o)) = row_key r) df in
  Total_Revenue r = Qsum (Revenue <$> orders) /\
  Units_Sold r = Qsum (Shipped_Quantity <$> orders) /\
  Unique_SKUs r =
    (if by_sku then None else Some (length (remove_dups (SKU <$> orders)))) /\
  orders <> [].
Proof.
  intros Hr orders. unfold orders. clear orders.
  apply (list_elem_of_fmap_2 totals_of) in Hr.
  rewrite quarterly_metrics_totals in Hr.
  unfold sorted_totals in Hr. rewrite elem_of_sort_values in Hr.
  unfold quarterly_totals in Hr.
  apply list_elem_of_fmap in Hr as ([k rows] & Hr & Hg).
  apply elem_of_groupby in Hg as [Hkey ->]. simpl in Hr.
  assert (row_key r = k) as Hk.
  { change (totals_key (totals_of r) = k). rewrite Hr.
    by destruct k as [[? ?] ?]. }
  assert (forall (B : Type) (g : order -> B),
            (fun x : order * string => g x.1)
              <$> filter (fun x => group_cols by_sku x = k) (add_quarter df)
            = g <$> filter (fun o => group_cols by_sku (o, quarter_label (Month o))
                                     = row_key r) df) as Hrows.
  { intros B g. unfold add_quarter.
    rewrite filter_fmap_comm, <- list_fmap_compose, Hk. done. }
  pose proof (f_equal t_Total_Revenue Hr) as Hrev.
  pose proof (f_equal t_Units_Sold Hr) as Hunits.
  pose proof (f_equal t_Unique_SKUs Hr) as Hskus.
  simpl in Hrev, Hunits, Hskus.
  rewrite (Hrows _ Revenue) in Hrev.
  rewrite (Hrows _ Shipped_Quantity) in Hunits.
  rewrite (Hrows _ SKU) in Hskus.
  do 3 (split; [done|]).
  unfold add_quarter in Hkey. rewrite <- list_fmap_compose in Hkey.
  apply list_elem_of_fmap in Hkey as (o & Ho & Hin).
  intros Hnil.
  assert (o ∈ filter (fun o => group_cols by_sku (o, quarter_label (Month o))
                               = row_key r) df) as Hmem.
  { apply list_elem_of_filter. split; [|done]. by rewrite Hk, Ho. }
  rewrite Hnil in Hmem. by apply elem_of_nil in Hmem.
Qed.

(** The partition of a row, spelt out: its SKU when by SKU, its year when
    not. *)
Lemma row_partition_same by_sku (p r : quarterly_row) :
  row_partition by_sku p = row_partition by_sku r <->
  if by_sku then q_SKU p = q_SKU r else q_Year p = q_Year r.
Proof.
  unfold row_partition, growth_partition. destruct by_sku; simpl;
    split; congruence.
Qed.

(** ** The claims on [helpers.py] *)

(** C1. The growth rates of [calculate_quarterly_metrics] are computed
    within the partition of the row: its SKU when the metrics are by SKU, its
    year when they are not. A row holds the revenue and the units of the
    orders of its year and quarter (and SKU) added up. The value before is
    the one of the last row above it that has its SKU (its year), and over a
    value that is not zero the growth is [(current - previous) / previous *
    100]; a row with no row of its SKU (its year) above it, the first of its
    partition, has no growth (NaN, no number and no exception: the function
    is total). So without the SKUs, and the months being months, the first
    quarter of every year has no growth, whatever the year before holds. *)
Theorem quarterly_growth_within_partition
    (df : list order) (by_sku : bool) (i : nat) (r : quarterly_row) :
  calculate_quarterly_metrics df by_sku !! i = Some r ->
  let out := calculate_quarterly_metrics df by_sku in
  let same_partition := fun p : quarterly_row =>
    if by_sku then q_SKU p = q_SKU r else q_Year p = q_Year r in
  let orders_of := fun x : quarterly_row =>
    filter (fun o => group_cols by_sku (o, quarter_label (Month o)) = row_key x) df in
  (orders_of r <> [] /\
   Total_Revenue r = Qsum (Revenue <$> orders_of r) /\
   Units_Sold r = Qsum (Shipped_Quantity <$> orders_of r)) /\
  ((exists j p,
      (j < i)%nat /\ out !! j = Some p /\ same_partition p /\
      (forall k q, (j < k < i)%nat -> out !! k = Some q -> ~ same_partition q) /\
      Total_Revenue p = Qsum (Revenue <$> orders_of p) /\
      Units_Sold p = Qsum (Shipped_Quantity <$> orders_of p) /\
      Revenue_Growth r = growth (Some (Total_Revenue p)) (Total_Revenue r) /\
      Units_Growth r = growth (Some (Units_Sold p)) (Units_Sold r) /\
      (~ (Total_Revenue p == 0)%Q ->
       exists g, Revenue_Growth r = Fin g /\
         (g == (Total_Revenue r - Total_Revenue p) / Total_Revenue p * 100)%Q) /\
      (~ (Units_Sold p == 0)%Q ->
       exists g, Units_Growth r = Fin g /\
         (g == (Units_Sold r - Units_Sold p) / Units_Sold p * 100)%Q))
   \/
   ((forall j p, (j < i)%nat -> out !! j = Some p -> ~ same_partition p) /\
    Revenue_Growth r = NaN /\ Units_Growth r = NaN)) /\
  (by_sku = false ->
   Forall (fun o => 1 <= Month o <= 12) df ->
   q_Quarter r = "Q1" ->
   Revenue_Growth r = NaN /\ Units_Growth r = NaN).
Proof.
  intros Hr out same_partition orders_of.
  pose proof (quarterly_growth_lookup _ _ _ _ Hr) as [Hrev Hunits].
  simpl in Hrev, Hunits. split; [|split].
  - destruct (quarterly_metrics_row_totals df by_sku r) as (? & ? & _ & ?);
      [by eapply list_elem_of_lookup_2|done].
  - destruct (previous_in_group _ _ _) as [p|] eqn:Hprev.
    + left. unfold previous_in_group in Hprev.
      apply last_filter_Some in Hprev as (j & Hj & Hsame & Hafter).
      apply lookup_take_Some in Hj as [Hj Hlt].
      apply row_partition_same in Hsame.
      exists j, p. do 3 (split; [done|]). split.
      { intros k q [Hjk Hki] Hq Hq'. apply (Hafter k q Hjk).
        - by rewrite lookup_take_lt.
        - by apply row_partition_same. }
      destruct (quarterly_metrics_row_totals df by_sku p) as (Hp1 & Hp2 & _);
        [by eapply list_elem_of_lookup_2|].
      do 2 (split; [done|]). simpl in Hrev, Hunits.
      do 2 (split; [done|]). rewrite Hrev, Hunits.
      split; apply growth_of_nonzero.
    + right. split; [|done]. intros j p Hlt Hj Hsame.
      unfold previous_in_group in Hprev.
      apply (last_filter_None _ _ Hprev p).
      * apply (list_elem_of_lookup_2 _ j). by rewrite lookup_take_lt.
      * by apply row_partition_same.
  - intros -> Hmonths HQ1.
    destruct (quarterly_metrics_lookup _ _ _ _ Hr) as (t & Ht & Heq).
    rewrite (first_quarter_opens_partition df i t Hmonths Ht) in Heq;
      [by subst r|by subst r].
Qed.

Lemma quarterly_growth_within_partition_witness :
  exists q2 q1' r5 g g',
    calculate_quarterly_metrics two_years false !! 1%nat = Some q2 /\
    (q_Year q2, q_Quarter q2) = (2023, "Q2") /\
    (Total_Revenue q2 == 150)%Q /\
    Revenue_Growth q2 = Fin g /\ (g == 50)%Q /\
    calculate_quarterly_metrics two_years false !! 3%nat = Some q1' /\
    (q_Year q1', q_Quarter q1') = (2024, "Q1") /\
    Revenue_Growth q1' = NaN /\ Units_Growth q1' = NaN /\
    calculate_quarterly_metrics two_years true !! 4%nat = Some r5 /\
    (q_SKU r5, q_Year r5, q_Quarter r5) = (Some "AB-1", 2024, "Q2") /\
    Revenue_Growth r5 = Fin g' /\ (g' == (5 - 150) / 150 * 100)%Q.
Proof.
  destruct (calculate_quarterly_metrics two_years false !! 1%nat) as [q2|] eqn:H2;
    [|by vm_compute in H2].
  destruct (calculate_quarterly_metrics two_years false !! 3%nat) as [q1'|] eqn:H1';
    [|by vm_compute in H1'].
  destruct (calculate_quarterly_metrics two_years true !! 4%nat) as [r5|] eqn:H5;
    [|by vm_compute in H5].
  destruct (quarterly_growth_within_partition two_years false 1 q2 H2)
    as ((_ & Htotal & _) & Hgrowth & _).
  destruct (quarterly_growth_within_partition two_years false 3 q1' H1')
    as (_ & _ & Hfirst).
  destruct (quarterly_growth_within_partition two_years true 4 r5 H5)
    as (_ & Hgrowth5 & _).
  assert (Forall (fun o => 1 <= Month o <= 12) two_years) as Hmonths.
  { unfold two_years. repeat constructor; simpl; lia. }
  vm_compute in H2. injection H2 as <-.
  vm_compute in H1'. injection H1' as <-.
  vm_compute in H5. injection H5 as <-.
  destruct Hgrowth as [(j & p & Hlt & Hj & _ & _ & Hp & _ & _ & _ & Hnz & _)|(Hnone & _)].
  2: { exfalso. by apply (Hnone 0%nat _ (Nat.lt_0_1) eq_refl). }
  assert (j = 0%nat) as -> by lia. vm_compute in Hj. injection Hj as <-.
  destruct Hnz as (g & Hg & Hgq); [by vm_compute|].
  destruct Hgrowth5
    as [(j & p & Hlt5 & Hj5 & Hsame5 & Hafter5 & _ & _ & _ & _ & Hnz5 & _)|(Hnone & _)].
  2: { exfalso. by apply (Hnone 1%nat _ (ltac:(lia)) eq_refl). }
  assert (j = 1%nat) as ->.
  { destruct (decide (j = 1%nat)) as [|Hne]; [done|]. exfalso.
    assert (j = 0 \/ j = 2 \/ j = 3)%nat as [-> | [-> | ->] ] by lia;
      vm_compute in Hj5; injection Hj5 as <-.
    - by apply (Hafter5 1%nat _ (ltac:(lia)) eq_refl).
    - by vm_compute in Hsame5.
    - by vm_compute in Hsame5. }
  vm_compute in Hj5. injection Hj5 as <-.
  destruct Hnz5 as (g' & Hg' & Hgq'); [by vm_compute|].
  eexists _, _, _, g, g'.
  split; [reflexivity|]. split; [reflexivity|]. split; [by vm_compute|].
  split; [exact Hg|]. split; [rewrite Hgq; by vm_compute|].
  split; [reflexivity|]. split; [reflexivity|].
  split; [apply Hfirst; [reflexivity|exact Hmonths|reflexivity] |].
  split; [apply Hfirst; [reflexivity|exact Hmonths|reflexivity] |].
  split; [reflexivity|]. split; [reflexivity|].
  split; [exact Hg'|]. rewrite Hgq'. by vm_compute.
Defined.


(** The scenario of the specification: a second quarter of 150 after a
    first of 100 has grown by 50 percent; the first quarter of 2024 has no
    growth, and the second of 2024 is compared with it. *)
Example scenario_of_two_years :
  exists q2 q1' q2' g g',
    calculate_quarterly_metrics two_years false !! 1%nat = Some q2 /\
    calculate_quarterly_metrics two_years false !! 3%nat = Some q1' /\
    calculate_quarterly_metrics two_years false !! 4%nat = Some q2' /\
    (q_Year q2, q_Quarter q2) = (2023, "Q2") /\
    Revenue_Growth q2 = Fin g /\ (g == 50)%Q /\
    (q_Year q1', q_Quarter q1') = (2024, "Q1") /\
    Revenue_Growth q1' = NaN /\
    (q_Year q2', q_Quarter q2') = (2024, "Q2") /\
    Revenue_Growth q2' = Fin g' /\ (g' == (5 - 80) / 80 * 100)%Q.
Proof. eexists _, _, _, _, _. by vm_compute. Qed.

(** C8. The months being months (1 to 12), the result of
    [calculate_quarterly_metrics] is in ascending order of the year and, in a
    year, of the ordinal of the quarter, which is one of 1 to 4: of two rows
    that follow each other the year and quarter of the first are at most
    those of the second. *)
Theorem quarterly_metrics_sorted_by_year_quarter
    (df : list order) (by_sku : bool) (i : nat) (r1 r2 : quarterly_row) :
  Forall (fun o => 1 <= Month o <= 12) df ->
  calculate_quarterly_metrics df by_sku !! i = Some r1 ->
  calculate_quarterly_metrics df by_sku !! S i = Some r2 ->
  1 <= quarter_ordinal (q_Quarter r1) <= 4 /\
  1 <= quarter_ordinal (q_Quarter r2) <= 4 /\
  (q_Year r1 < q_Year r2 \/
   (q_Year r1 = q_Year r2 /\
    quarter_ordinal (q_Quarter r1) <= quarter_ordinal (q_Quarter r2))).
Proof.
  intros Hmonths H1 H2. rewrite Forall_forall in Hmonths.
  apply (list_lookup_fmap_Some_2 totals_of) in H1, H2.
  rewrite quarterly_metrics_totals in H1, H2.
  assert (forall t r, sorted_totals df by_sku !! t = Some (totals_of r) ->
                      is_quarter (q_Quarter r)) as Hq.
  { intros j r Hj. apply list_elem_of_lookup_2 in Hj.
    apply elem_of_sorted_totals in Hj as (o & Ho & _ & Hlabel & _).
    simpl in Hlabel. rewrite Hlabel. by apply quarter_label_is_quarter, Hmonths. }
  pose proof (Hq _ _ H1) as Hq1. pose proof (Hq _ _ H2) as Hq2.
  split; [by apply quarter_ordinal_range|].
  split; [by apply quarter_ordinal_range|].
  pose proof (Sorted_lookup_next _ _ _ _ _
    (sort_values_Sorted year_quarter_leb _ year_quarter_leb_total _) H1 H2) as Hle.
  apply year_quarter_leb_spec in Hle. simpl in Hle.
  destruct Hle as [?|[? Hle]]; [by left|right].
  split; [done|]. by apply quarter_le_ordinal.
Qed.

Lemma quarterly_metrics_sorted_witness :
  exists r1 r2,
    Forall (fun o => 1 <= Month o <= 12) two_years /\
    calculate_quarterly_metrics two_years true !! 2%nat = Some r1 /\
    calculate_quarterly_metrics two_years true !! 3%nat = Some r2 /\
    (q_Year r1, q_Quarter r1) = (2023, "Q4") /\
    (q_Year r2, q_Quarter r2) = (2024, "Q1") /\
    (q_Year r1 < q_Year r2 \/
     (q_Year r1 = q_Year r2 /\
      quarter_ordinal (q_Quarter r1) <= quarter_ordinal (q_Quarter r2))).
Proof.
  assert (Forall (fun o => 1 <= Month o <= 12) two_years) as Hmonths
    by (unfold two_years; repeat constructor; simpl; lia).
  eexists _, _. split; [exact Hmonths|].
  do 4 (split; [reflexivity|]).
  eapply (quarterly_metrics_sorted_by_year_quarter two_years true 2);
    [exact Hmonths|reflexivity..].
Defined.

(** C5, against the claim as it is stated. The fourth quarter of 2023 sold
    nothing and the first of 2024 did: by SKU its growth is [+inf] in both
    columns, which is a number to pandas and no absent value. *)
Lemma zero_previous_growth_is_infinite :
  exists p r,
    calculate_quarterly_metrics two_years true !! 3%nat = Some r /\
    previous_in_group (row_partition true)
      (take 3 (calculate_quarterly_metrics two_years true)) r = Some p /\
    (Total_Revenue p == 0)%Q /\ (Units_Sold p == 0)%Q /\
    Revenue_Growth r = Inf false /\ isna (Revenue_Growth r) = false /\
    Units_Growth r = Inf false /\ isna (Units_Growth r) = false.
Proof. eexists _, _. by vm_compute. Qed.

Lemma growth_of_zero prev cur : (prev == 0)%Q -> growth (Some prev) cur = growth_from_zero cur.
Proof.
  intros Hz. unfold growth, growth_from_zero, percent, pct, xdiv, Qsign. simpl.
  rewrite Hz. change (0 ?= 0)%Q with Eq.
  by destruct (cur ?= 0)%Q.
Qed.

(** C5, as the code has it. A row with no row before it in its partition
    has no growth (NaN) in both columns. Where the value before is zero the
    growth is no exception either, and it is absent only where the value of
    the row is zero too: it is [+inf] where that value is positive and
    [-inf] where it is negative. *)
Theorem quarterly_growth_zero_or_missing_previous
    (df : list order) (by_sku : bool) (i : nat) (r : quarterly_row) :
  calculate_quarterly_metrics df by_sku !! i = Some r ->
  match previous_in_group (row_partition by_sku)
          (take i (calculate_quarterly_metrics df by_sku)) r with
  | None => Revenue_Growth r = NaN /\ Units_Growth r = NaN
  | Some p =>
      ((Total_Revenue p == 0)%Q ->
       Revenue_Growth r = growth_from_zero (Total_Revenue r)) /\
      ((Units_Sold p == 0)%Q ->
       Units_Growth r = growth_from_zero (Units_Sold r))
  end.
Proof.
  intros Hr. pose proof (quarterly_growth_lookup _ _ _ _ Hr) as [Hrev Hunits].
  simpl in *. destruct (previous_in_group _ _ _) as [p|]; [|done].
  simpl in *. split; intros Hz.
  - by rewrite Hrev, growth_of_zero.
  - by rewrite Hunits, growth_of_zero.
Qed.

Lemma quarterly_growth_zero_previous_witness :
  exists r before,
    calculate_quarterly_metrics two_years true !! 3%nat = Some r /\
    Total_Revenue <$> previous_in_group (row_partition true)
      (take 3 (calculate_quarterly_metrics two_years true)) r = Some before /\
    (before == 0)%Q /\
    Revenue_Growth r = growth_from_zero (Total_Revenue r) /\
    Units_Growth r = growth_from_zero (Units_Sold r) /\
    growth_from_zero (Total_Revenue r) = Inf false.
Proof.
  eexists _, _. do 3 (split; [reflexivity|]).
  destruct (quarterly_growth_zero_or_missing_previous two_years true 3 _ eq_refl)
    as [Hrev Hunits].
  split; [apply Hrev; reflexivity|].
  split; [apply Hunits; reflexivity|reflexivity].
Defined.

Lemma elem_of_sku_groups df r :
  r ∈ sku_groups df ->
  s_SKU r ∈ SKU <$> df /\
  s_Total_Revenue r =
    round2 (Qsum (Revenue <$> filter (fun o => SKU o = s_SKU r) df)) /\
  Avg_Revenue_per_Order r =
    round2 (Qmean (Revenue <$> filter (fun o => SKU o = s_SKU r) df)) /\
  s_Units_Sold r =
    round2 (Qsum (Shipped_Quantity <$> filter (fun o => SKU o = s_SKU r) df)).
Proof.
  unfold sku_groups. intros ([k rows] & -> & Hg)%list_elem_of_fmap.
  apply elem_of_groupby in Hg as [Hk ->]. by simpl.
Qed.

Lemma sku_groups_keys df : s_SKU <$> sku_groups df ≡ₚ remove_dups (SKU <$> df).
Proof.
  unfold sku_groups. rewrite <- list_fmap_compose.
  erewrite (list_fmap_ext _ fst); [|done]. apply groupby_keys.
Qed.

(** C6. The result of [get_sku_metrics] is one row per SKU of the table,
    holding the rounded sums of its revenue and units, and one last row
    [TOTAL]: its revenue is the sum of the revenue column of the rows above
    it, its units the sum of their units column, and its average its own
    revenue divided by the number of rows of the input table (no mean of the
    means of the SKUs), or 0 when the table has no row. *)
Theorem sku_metrics_total_row (df : list order) :
  exists body total,
    get_sku_metrics df = body ++ [total] /\
    s_SKU <$> body ≡ₚ remove_dups (SKU <$> df) /\
    Forall (fun r =>
      s_Total_Revenue r =
        round2 (Qsum (Revenue <$> filter (fun o => SKU o = s_SKU r) df)) /\
      s_Units_Sold r =
        round2 (Qsum (Shipped_Quantity <$> filter (fun o => SKU o = s_SKU r) df)))
      body /\
    s_SKU total = "TOTAL" /\
    s_Total_Revenue total = Qsum (s_Total_Revenue <$> body) /\
    s_Units_Sold total = Qsum (s_Units_Sold <$> body) /\
    Avg_Revenue_per_Order total =
      match df with
      | [] => 0%Q
      | _ => (Qsum (s_Total_Revenue <$> body) / Qlen df)%Q
      end.
Proof.
  eexists _, _. split; [reflexivity|].
  split; [by rewrite sort_values_Permutation, sku_groups_keys|].
  split.
  { apply Forall_forall. intros r Hr. apply elem_of_sort_values in Hr.
    apply elem_of_sku_groups in Hr. tauto. }
  simpl. by destruct df.
Qed.

(** The average of the [TOTAL] row is no mean of the averages above it:
    three orders of one SKU and one of another. *)
Example total_average_is_not_mean_of_means :
  let df := [ mk_order 2023 1 "A" 10 1; mk_order 2023 1 "A" 10 1;
              mk_order 2023 2 "A" 10 1; mk_order 2023 2 "B" 50 1 ] in
  exists a b total,
    get_sku_metrics df = [a; b; total] /\
    (Avg_Revenue_per_Order total == 20)%Q /\
    (Qmean [Avg_Revenue_per_Order a; Avg_Revenue_per_Order b] == 30)%Q.
Proof. eexists _, _, _. by vm_compute. Qed.

(** ** Facts on [map_skus_in_df] *)

Lemma set_cell_lookup col v (r : row) : set_cell col v r !! col = v.
Proof.
  destruct v; simpl; [apply lookup_insert_eq|apply lookup_delete_eq].
Qed.

Lemma set_cell_lookup_ne col col' v (r : row) :
  col <> col' -> set_cell col v r !! col' = r !! col'.
Proof.
  intros. destruct v; simpl; [by apply lookup_insert_ne|by apply lookup_delete_ne].
Qed.

Lemma assign_other_column col f df c :
  c <> col -> c ∈ columns (assign col f df) <-> c ∈ columns df.
Proof.
  intros Hne. unfold assign. simpl. destruct (decide (col ∈ columns df)); [done|].
  rewrite elem_of_app, list_elem_of_singleton. tauto.
Qed.

Lemma map_skus_in_df_rows `{Conversions} self df :
  "Merchant SKU" ∈ columns df ->
  rows (map_skus_in_df self df) =
    if decide (filters_states self df)
    then (fun r => with_state self (with_sku self r))
           <$> filter (fun r => is_Some (map_state self (r !! "Shipping State")))
                      (rows df)
    else with_sku self <$> rows df.
Proof.
  intros Hcol. unfold map_skus_in_df, filters_states.
  rewrite decide_True by done.
  destruct (decide ("Shipping State" ∈ columns df /\ _)) as [Hf|Hf].
  - rewrite decide_True by (by rewrite assign_other_column).
    simpl. rewrite <- list_fmap_compose, !filter_fmap_comm, <- !list_fmap_compose.
    erewrite (list_filter_iff _ (fun r => is_Some (map_state self (r !! "Shipping State")))).
    + apply list_fmap_ext. intros _ r _. simpl.
      by rewrite set_cell_lookup.
    + intros r. simpl. rewrite set_cell_lookup.
      rewrite (set_cell_lookup_ne "SKU" "Shipping State") by done.
      destruct (map_state self (r !! "Shipping State")); simpl;
        [by split; eauto|]. split; [done|by intros []].
  - by rewrite decide_False by (by rewrite assign_other_column).
Qed.

Lemma with_sku_lookup_ne self r c : c <> "SKU" -> with_sku self r !! c = r !! c.
Proof. intros. unfold with_sku. by rewrite set_cell_lookup_ne. Qed.

Lemma with_state_lookup_state `{Conversions} self r :
  with_state self r !! "Shipping State" =
  Text <$> map_state self (r !! "Shipping State").
Proof.
  unfold with_state. rewrite lookup_delete_ne by done. apply set_cell_lookup.
Qed.

Lemma with_state_lookup_ne `{Conversions} self r c :
  c <> "Shipping State" -> c <> "State Code" -> with_state self r !! c = r !! c.
Proof.
  intros. unfold with_state.
  rewrite lookup_delete_ne by done. by rewrite !set_cell_lookup_ne.
Qed.

Lemma Forall2_fmap_self {A B} (f : A -> B) (R : A -> B -> Prop) (l : list A) :
  (forall x, x ∈ l -> R x (f x)) -> Forall2 R l (f <$> l).
Proof.
  intros HR. apply Forall2_fmap_r, Forall_Forall2_diag, Forall_forall.
  done.
Qed.

(** ** The claims on [sku_manager.py] *)

(** C4. [map_state] finds no state for a missing value and for a value whose
    entry of the legend is none or is no valid state code. Where the legend
    has state codes, [map_skus_in_df] drops these rows from a table of
    orders (one with the columns of the merchant SKU and of the state): the
    rows it returns are the rows whose state is found, in their order, the
    state replaced by its code. Where the legend has no state code it drops
    no row. *)
Theorem unmapped_region_is_dropped `{Conversions} (self : SKUManager) (df : frame) :
  map_state self None = None /\
  (forall v,
     (forall code, state_name_to_code self !! strip (py_str v) = Some code ->
                   code ∉ valid_state_codes self) ->
     map_state self (Some v) = None) /\
  ("Merchant SKU" ∈ columns df -> "Shipping State" ∈ columns df ->
   valid_state_codes self <> ∅ ->
   Forall2
     (fun r r' =>
        r' !! "Shipping State" = Text <$> map_state self (r !! "Shipping State") /\
        forall c, c <> "SKU" -> c <> "Shipping State" -> c <> "State Code" ->
                  r' !! c = r !! c)
     (filter (fun r => is_Some (map_state self (r !! "Shipping State"))) (rows df))
     (rows (map_skus_in_df self df))) /\
  (valid_state_codes self = ∅ ->
   Forall2 (fun r r' => forall c, c <> "SKU" -> r' !! c = r !! c)
           (rows df) (rows (map_skus_in_df self df))).
Proof.
  split; [done|]. split.
  { intros v Hv. unfold map_state.
    destruct (state_name_to_code self !! strip (py_str v)) as [code|] eqn:Hc; [|done].
    rewrite decide_False; [done|]. by apply Hv. }
  split.
  - intros Hsku Hstate Hvalid.
    rewrite map_skus_in_df_rows, decide_True by done.
    apply Forall2_fmap_self. intros r _. split.
    + by rewrite with_state_lookup_state, with_sku_lookup_ne.
    + intros c ???. by rewrite with_state_lookup_ne, with_sku_lookup_ne.
  - intros Hvalid. destruct (decide ("Merchant SKU" ∈ columns df)) as [Hsku|Hsku].
    + rewrite map_skus_in_df_rows, decide_False by (done || by intros [_ []]).
      apply Forall2_fmap_self. intros r _ c ?. by rewrite with_sku_lookup_ne.
    + unfold map_skus_in_df. rewrite decide_False by done.
      by apply Forall_Forall2_diag, Forall_forall.
Qed.

Lemma unmapped_region_witness :
  "Merchant SKU" ∈ columns two_orders /\
  "Shipping State" ∈ columns two_orders /\
  valid_state_codes legend <> ∅ /\
  map_state (H := sample_conversions) legend (Some (Text "ZZ")) = None /\
  length (filter (fun r : row =>
            is_Some (map_state (H := sample_conversions) legend (r !! "Shipping State")))
            (rows two_orders)) = 1%nat /\
  Forall2
    (fun (r r' : row) =>
       r' !! "Shipping State" =
         Text <$> map_state (H := sample_conversions) legend (r !! "Shipping State") /\
       forall c, c <> "SKU" -> c <> "Shipping State" -> c <> "State Code" ->
                 r' !! c = r !! c)
    (filter (fun r : row =>
       is_Some (map_state (H := sample_conversions) legend (r !! "Shipping State")))
       (rows two_orders))
    (rows (map_skus_in_df (H := sample_conversions) legend two_orders)).
Proof.
  assert ("Merchant SKU" ∈ columns two_orders) as Hsku
    by (apply (bool_decide_unpack _); reflexivity).
  assert ("Shipping State" ∈ columns two_orders) as Hstate
    by (apply (bool_decide_unpack _); reflexivity).
  assert (valid_state_codes legend <> ∅) as Hvalid
    by (apply (bool_decide_unpack _); vm_compute; exact I).
  do 3 (split; [assumption|]). split; [reflexivity|]. split; [reflexivity|].
  exact (proj1 (proj2 (proj2
    (unmapped_region_is_dropped (H := sample_conversions) legend two_orders)))
    Hsku Hstate Hvalid).
Defined.

(** C10. A table without the column of the merchant SKU comes back from
    [map_skus_in_df] as it went in, whatever the legend holds: no column
    added, no state resolved, no row dropped. *)
Theorem map_skus_without_merchant_column `{Conversions} (self : SKUManager) (df : frame) :
  "Merchant SKU" ∉ columns df -> map_skus_in_df self df = df.
Proof. intros Hcol. unfold map_skus_in_df. by rewrite decide_False. Qed.

Lemma map_skus_without_merchant_column_witness :
  ("Merchant SKU" ∉ columns states_only) /\
  valid_state_codes legend <> ∅ /\
  map_skus_in_df (H := sample_conversions) legend states_only = states_only.
Proof.
  assert ("Merchant SKU" ∉ columns states_only) as Hcol
    by (apply (bool_decide_unpack _); reflexivity).
  split; [exact Hcol|].
  split; [apply (bool_decide_unpack _); vm_compute; exact I|].
  exact (map_skus_without_merchant_column (H := sample_conversions) legend states_only Hcol).
Defined.

(** C9. [map_sku] gives back a merchant SKU the mapping does not hold, and
    [map_skus_in_df] keeps the row of such a SKU with the merchant SKU as its
    SKU: a row leaves the table on account of its state alone, and the
    number of rows that stay does not depend on the mapping of the SKUs. *)
Theorem unmapped_sku_is_kept `{Conversions} (self : SKUManager) (raw : string) :
  sku_mapping self !! raw = None ->
  map_sku self raw = raw /\
  (forall df r,
     "Merchant SKU" ∈ columns df -> r ∈ rows df ->
     r !! "Merchant SKU" = Some (Text raw) ->
     ~ filters_states self df \/ is_Some (map_state self (r !! "Shipping State")) ->
     exists r', r' ∈ rows (map_skus_in_df self df) /\
                r' !! "SKU" = Some (Text raw) /\
                r' !! "Merchant SKU" = Some (Text raw)) /\
  (forall df other,
     length (rows (map_skus_in_df self df)) =
     length (rows (map_skus_in_df
                     (mk_manager other (state_name_to_code self)
                                 (valid_state_codes self)) df))).
Proof.
  intros Hraw. split; [by unfold map_sku; rewrite Hraw|]. split.
  - intros df r Hcol Hr Hm Hkept.
    assert (with_sku self r !! "SKU" = Some (Text raw)) as Hsku.
    { unfold with_sku. rewrite set_cell_lookup, Hm. simpl. by rewrite Hraw. }
    rewrite map_skus_in_df_rows by done.
    destruct (decide (filters_states self df)) as [Hf|Hf].
    + destruct Hkept as [?|Hstate]; [done|].
      exists (with_state self (with_sku self r)). split.
      * apply (list_elem_of_fmap_2 (fun r => with_state self (with_sku self r))).
        by apply list_elem_of_filter.
      * rewrite !with_state_lookup_ne by done.
        split; [done|]. by rewrite with_sku_lookup_ne.
    + exists (with_sku self r). split; [by apply list_elem_of_fmap_2|].
      split; [done|]. by rewrite with_sku_lookup_ne.
  - intros df other. destruct (decide ("Merchant SKU" ∈ columns df)) as [Hcol|Hcol].
    + rewrite !map_skus_in_df_rows by done. unfold filters_states. simpl.
      destruct (decide _); by rewrite !length_fmap.
    + unfold map_skus_in_df. by rewrite !decide_False by done.
Qed.

Lemma unmapped_sku_witness :
  sku_mapping legend !! "XY-9" = None /\
  map_sku legend "XY-9" = "XY-9" /\
  length (rows (map_skus_in_df (H := sample_conversions) legend two_orders)) =
  length (rows (map_skus_in_df (H := sample_conversions)
                  (mk_manager ∅ (state_name_to_code legend) (valid_state_codes legend))
                  two_orders)).
Proof.
  assert (sku_mapping legend !! "XY-9" = None) as Hraw by reflexivity.
  split; [exact Hraw|].
  pose proof (unmapped_sku_is_kept (H := sample_conversions) legend "XY-9" Hraw)
    as (Hsku & _ & Hcount).
  split; [exact Hsku|apply Hcount].
Defined.

(** ** Facts on [load_data] *)

Lemma read_files_from `{Conversions} (acc : list frame * list diagnostic) csv_files :
  foldl (fun (acc : list frame * list diagnostic) file =>
           match parse_file file with
           | Some df => (acc.1 ++ [df], acc.2)
           | None => (acc.1, acc.2 ++ [ErrorReadingFile (path file)])
           end) acc csv_files =
  (acc.1 ++ omap parse_file csv_files,
   acc.2 ++ ((fun f => ErrorReadingFile (path f)) <$> filter fails csv_files)).
Proof.
  revert acc. induction csv_files as [|file files IH]; intros [dfs shown]; simpl.
  { by rewrite !app_nil_r. }
  rewrite IH, filter_cons.
  destruct (decide (fails file)) as [Hfile|Hfile].
  - unfold fails in Hfile. rewrite Hfile. simpl. by rewrite <- app_assoc.
  - unfold fails in Hfile. destruct (parse_file file); [|done].
    simpl. by rewrite <- app_assoc.
Qed.

Lemma read_files_spec `{Conversions} csv_files :
  read_files csv_files =
  (omap parse_file csv_files,
   (fun f => ErrorReadingFile (path f)) <$> filter fails csv_files).
Proof. unfold read_files. by rewrite read_files_from. Qed.




(** A timestamp that cannot be read fails the file it is in. *)
Lemma unreadable_timestamp_fails_file `{Conversions} file df (r : row) v :
  read_csv file = Some df -> r ∈ rows df ->
  r !! "Purchase Date" = Some v -> to_datetime_value v = None ->
  parse_file file = None.
Proof.
  intros Hdf Hr Hv Hbad. unfold parse_file, to_datetime. rewrite Hdf. simpl.
  case_guard; [|done]. simpl.
  rewrite (mapM_None_2 _ (rows df)); [done|].
  apply Exists_exists. exists r. split; [done|]. by rewrite Hv, Hbad.
Qed.

(** A row without a timestamp is dropped alone: where every timestamp of a
    file can be read, the file gives the rows that have one. *)
Lemma missing_timestamp_drops_row `{Conversions} file df :
  read_csv file = Some df ->
  "Purchase Date" ∈ columns df -> "Merchant SKU" ∈ columns df ->
  Forall (fun r : row => forall v, r !! "Purchase Date" = Some v ->
                                   is_Some (to_datetime_value v)) (rows df) ->
  exists df', parse_file file = Some df' /\
    Forall2 (fun (r r' : row) =>
               (exists t, purchase_date r' = Some t) /\
               r' !! "Merchant SKU" = str_strip (r !! "Merchant SKU") /\
               forall c, c <> "Purchase Date" -> c <> "Merchant SKU" ->
                         r' !! c = r !! c)
            (filter (fun r : row => is_Some (r !! "Purchase Date")) (rows df))
            (rows df').
Proof.
  intros Hdf Hdate Hsku Hall. unfold parse_file, to_datetime. rewrite Hdf. simpl.
  rewrite option_guard_True by done.
  set (conv := fun r : row =>
         match r !! "Purchase Date" with
         | Some v => t ← to_datetime_value v; Some (<["Purchase Date" := Instant t]> r)
         | None => Some r
         end).
  assert (exists rows', mapM conv (rows df) = Some rows' /\
            Forall2 (fun r r' : row => conv r = Some r') (rows df) rows')
    as (rows' & Hmap & Hrows).
  { destruct (mapM conv (rows df)) as [rows'|] eqn:Hm.
    - exists rows'. split; [done|]. by apply mapM_Some_1.
    - apply mapM_None_1, Exists_exists in Hm as (r & Hr & Hnone).
      rewrite Forall_forall in Hall. specialize (Hall r Hr).
      unfold conv in Hnone. destruct (r !! "Purchase Date") as [v|]; [|done].
      destruct (Hall v eq_refl) as [t Ht]. by rewrite Ht in Hnone. }
  rewrite Hmap. simpl. rewrite option_guard_True by done.
  eexists. split; [reflexivity|]. simpl.
  apply Forall2_fmap_r. clear Hmap Hall.
  induction Hrows as [|r r' l l' Hconv _ IH]; [constructor|].
  rewrite !filter_cons. unfold conv in Hconv.
  destruct (r !! "Purchase Date") as [v|] eqn:Hv.
  - destruct (to_datetime_value v) as [t|]; [|done]. injection Hconv as <-.
    rewrite lookup_insert_eq. simpl.
    constructor; [|done]. simpl. split; [|split].
    + exists t. unfold purchase_date.
      rewrite set_cell_lookup_ne by done. by rewrite lookup_insert_eq.
    + rewrite set_cell_lookup. by rewrite lookup_insert_ne.
    + intros c ??. rewrite set_cell_lookup_ne by done. by rewrite lookup_insert_ne.
  - injection Hconv as <-. rewrite Hv. by simpl.
Qed.

(** ** The claims on [loader.py] *)

(** C2, at the input that shows the defect. Of the two orders of
    [source/mixed.csv] the second has a timestamp that is none:
    [pd.to_datetime] raises on it, so the file as a whole is skipped and the
    first order, whose timestamp is fine, never reaches the table. A file
    whose second order has no timestamp at all keeps its first order. *)
Lemma bad_timestamp_loses_the_file :
  parse_file (H := sample_conversions) one_bad_timestamp = None /\
  load_data (H := sample_conversions) (Some legend) [one_bad_timestamp] =
    (empty_frame, [ErrorReadingFile "source/mixed.csv"; NoCSVFiles]) /\
  length (rows (load_data (H := sample_conversions) (Some legend)
                  [one_missing_timestamp]).1) = 1%nat.
Proof. by vm_compute. Qed.

(** ** The rows of the files in the table of [load_data] *)















(** The scenario of the specification: of the orders of the two files the
    one of April has a state the legend does not know and is dropped; the one
    of January stays, with its canonical SKU and a revenue of 8. *)
Example scenario_of_two_files :
  let table := (load_data (H := sample_conversions) (Some legend) [january; april]).1 in
  length (rows table) = 1%nat /\
  cell_at table 0 "SKU" = Some (Text "WIDGET-A") /\
  cell_at table 0 "Shipping State" = Some (Text "CA") /\
  cell_at table 0 "Revenue" = Some (Number 8) /\
  cell_at table 0 "Year" = Some (Number 2023) /\
  cell_at table 0 "Month" = Some (Number 1).
Proof. by vm_compute. Qed.

(** The scenario of the specification with a file that cannot be read
    between its two files: the table is the one of the two files alone. *)
Example broken_file_between_two :
  load_data (H := sample_conversions) (Some legend) [january; unreadable; april] =
    ((load_data (H := sample_conversions) (Some legend) [january; april]).1,
     [ErrorReadingFile "source/broken.csv"]) /\
  length (rows (load_data (H := sample_conversions) (Some legend)
                  [january; april]).1) = 1%nat.
Proof. by vm_compute. Qed.

(** ** Facts on the workbook of the legend *)

Lemma sheet_named_filter name other (sheets : workbook) :
  other <> name ->
  sheet_named other (filter (fun sheet : string * frame => sheet.1 <> name) sheets) =
  sheet_named other sheets.
Proof.
  intros Hne. induction sheets as [|[n df] sheets IH]; [done|].
  rewrite filter_cons. simpl. destruct (decide (n <> name)) as [Hn|Hn]; simpl.
  - by rewrite IH.
  - rewrite decide_False by (intros ->; by destruct Hn). done.
Qed.

(** A write that ends well leaves the table of every other sheet as it was,
    and puts the table written under the name of the sheet. *)
Lemma save_keeps_other_sheets df name (s s' : store) :
  save_sheet_data df name Written s = (true, s') ->
  read_excel (legend_file s') name = Some df /\
  forall other, other <> name ->
    read_excel (legend_file s') other = read_excel (legend_file s) other.
Proof.
  unfold save_sheet_data. destruct (legend_file s) as [sheets|] eqn:Hfile; [|done].
  intros [= <-]. simpl. split.
  - by rewrite decide_True.
  - intros other Hne. rewrite decide_False by done.
    by apply sheet_named_filter.
Qed.

(** A write that raises is answered by [False], whatever the exception. *)
Lemma save_failure_is_reported df name (s : store) remains :
  (save_sheet_data df name (WriteFails remains) s).1 = false /\
  (legend_file s = None -> forall outcome,
     save_sheet_data df name outcome s = (false, s)).
Proof.
  unfold save_sheet_data. split.
  - by destruct (legend_file s).
  - by intros ->.
Qed.

(** The first read of a sheet after it is written gives the table written,
    cleaned. *)
Lemma first_read_after_save `{Conversions} df name (s s' : store) :
  save_sheet_data df name Written s = (true, s') ->
  sheet_cache s !! name = None ->
  (load_sheet_data name s').1 = clean_sheet df.
Proof.
  intros Hsave Hcache. destruct (save_keeps_other_sheets _ _ _ _ Hsave) as [Hread _].
  unfold load_sheet_data, read_sheet. rewrite Hread.
  unfold save_sheet_data in Hsave. destruct (legend_file s); [|done].
  injection Hsave as <-. simpl. by rewrite Hcache.
Qed.

(** A read of a sheet that was read before gives what the read before gave,
    whatever was written since. *)
Lemma cached_read_ignores_file `{Conversions} name (s : store) df file :
  sheet_cache s !! name = Some df ->
  (load_sheet_data name {| legend_file := file; sheet_cache := sheet_cache s |}).1 = df.
Proof. intros Hc. unfold load_sheet_data. simpl. by rewrite Hc. Qed.

(** ** The claim on [legend_loader.py] *)

(** C7, at the inputs that show the defect. The sheet [Amazon] is read (as
    the manager of the SKUs does when it is built), then written with its
    SKU changed, then read again: the write ends well and the file holds the
    new SKU, and the read gives the SKU of before, out of the cache. And
    with a cache that is empty, a sheet written with an empty cell in a
    column of texts is read back with the text [nan] in its place. *)
Lemma stale_sheet_after_save :
  let s1 := (load_sheet_data (H := sample_conversions) "Amazon" legend_store).2 in
  let saved := save_sheet_data (sku_sheet "WIDGET-B") "Amazon" Written s1 in
  let read := (load_sheet_data (H := sample_conversions) "Amazon" saved.2).1 in
  saved.1 = true /\
  read_excel (legend_file saved.2) "Amazon" = Some (sku_sheet "WIDGET-B") /\
  cell_at (sku_sheet "WIDGET-B") 0 "SKU" = Some (Text "WIDGET-B") /\
  cell_at read 0 "SKU" = Some (Text "WIDGET-A") /\
  let written := save_sheet_data sheet_with_gap "Amazon" Written legend_store in
  let read := (load_sheet_data (H := sample_conversions) "Amazon" written.2).1 in
  written.1 = true /\
  cell_at sheet_with_gap 1 "SKU" = None /\
  cell_at read 1 "SKU" = Some (Text "nan").
Proof. by vm_compute. Qed.

(** ** Sums over groups *)

Lemma Qsum_cons x l : Qsum (x :: l) = (x + Qsum l)%Q.
Proof. done. Qed.

Lemma Qsum_app l1 l2 : (Qsum (l1 ++ l2) == Qsum l1 + Qsum l2)%Q.
Proof.
  induction l1 as [|x l1 IH]; [unfold Qsum; simpl; ring|].
  rewrite <- app_comm_cons, !Qsum_cons, IH. ring.
Qed.

Lemma Qsum_Permutation l1 l2 : l1 ≡ₚ l2 -> (Qsum l1 == Qsum l2)%Q.
Proof.
  induction 1 as [|x l1 l2 _ IH|x y l|l1 l2 l3 _ IH1 _ IH2].
  - reflexivity.
  - by rewrite !Qsum_cons, IH.
  - rewrite !Qsum_cons. ring.
  - by rewrite IH1.
Qed.

Lemma Qsum_filter_split {A} (f : A -> Q) (P : A -> Prop)
    `{!forall x, Decision (P x)} (l : list A) :
  (Qsum (f <$> l) ==
   Qsum (f <$> filter P l) + Qsum (f <$> filter (fun x => ~ P x) l))%Q.
Proof.
  induction l as [|x l IH]; [unfold Qsum; simpl; ring|].
  rewrite !filter_cons.
  destruct (decide (P x)) as [HP|HP].
  - rewrite decide_False by auto. rewrite !fmap_cons, !Qsum_cons, IH. ring.
  - rewrite decide_True by done. rewrite !fmap_cons, !Qsum_cons, IH. ring.
Qed.

Section GroupSums.
Context {A K : Type} `{EqDecision K} (key : A -> K) (f : A -> Q).

Lemma Qsum_by_key (ks : list K) (l : list A) :
  NoDup ks -> (forall x, x ∈ l -> key x ∈ ks) ->
  (Qsum ((fun k => Qsum (f <$> filter (fun x => key x = k) l)) <$> ks)
   == Qsum (f <$> l))%Q.
Proof.
  intros Hks. revert l. induction Hks as [|k ks Hk _ IH]; intros l Hl.
  - destruct l as [|x l]; [reflexivity|].
    by destruct (not_elem_of_nil (key x)); apply Hl; left.
  - rewrite fmap_cons, Qsum_cons.
    rewrite (Qsum_filter_split f (fun x => key x = k) l).
    apply Qplus_comp; [reflexivity|].
    rewrite <- (IH (filter (fun x => key x <> k) l)).
    + apply Qsum_Permutation. apply Permutation_refl'.
      apply Forall_fmap_ext, Forall_forall. intros k' Hk'. do 2 f_equal.
      rewrite list_filter_filter. apply list_filter_iff.
      intros x. split; [|tauto]. intros Hx. split; [done|].
      intros Hx'. apply Hk. by rewrite <- Hx', Hx.
    + intros x [Hx Hne]%list_elem_of_filter.
      specialize (Hl x Hne). apply elem_of_cons in Hl as [?|?]; done.
Qed.

(** The sums of the groups add up to the sum of the table. *)
Lemma groupby_Qsum (leb : K -> K -> bool) (df : list A) :
  (Qsum ((fun g : K * list A => Qsum (f <$> g.2)) <$> groupby leb key df)
   == Qsum (f <$> df))%Q.
Proof.
  unfold groupby. rewrite <- list_fmap_compose.
  rewrite <- (Qsum_by_key (sort_values leb id (remove_dups (key <$> df))) df).
  - reflexivity.
  - rewrite sort_values_Permutation. apply NoDup_remove_dups.
  - intros x Hx. rewrite elem_of_sort_values, elem_of_remove_dups.
    by apply list_elem_of_fmap_2.
Qed.
End GroupSums.

(** ** More on the quarterly metrics *)

Lemma StronglySorted_impl {A} (R R' : A -> A -> Prop) (l : list A) :
  (forall a b, R a b -> R' a b) -> StronglySorted R l -> StronglySorted R' l.
Proof.
  intros HR. induction 1 as [|a l _ IH Ha]; constructor; [done|].
  eapply Forall_impl; [exact Ha|]. intros b. apply HR.
Qed.

(** The key of an order: what [groupby(group_cols)] groups it by. *)
Lemma add_quarter_keys by_sku df :
  group_cols by_sku <$> add_quarter df =
  (fun o => group_cols by_sku (o, quarter_label (Month o))) <$> df.
Proof. unfold add_quarter. by rewrite <- list_fmap_compose. Qed.

Lemma quarterly_metrics_keys df by_sku :
  row_key <$> calculate_quarterly_metrics df by_sku
  ≡ₚ remove_dups (group_cols by_sku <$> add_quarter df).
Proof.
  assert (row_key <$> calculate_quarterly_metrics df by_sku =
          totals_key <$> sorted_totals df by_sku) as ->.
  { by rewrite <- quarterly_metrics_totals, <- list_fmap_compose. }
  unfold sorted_totals.
  rewrite sort_values_Permutation, quarterly_totals_keys. apply groupby_keys.
Qed.

(** X1. [calculate_quarterly_metrics] loses no order and counts none twice:
    the revenues of its rows add up to the revenue of the table it is given,
    and their units to its units, by SKU or not (the sums being exact). *)
Theorem quarterly_metrics_conserve_totals (df : list order) (by_sku : bool) :
  (Qsum (Total_Revenue <$> calculate_quarterly_metrics df by_sku)
   == Qsum (Revenue <$> df))%Q /\
  (Qsum (Units_Sold <$> calculate_quarterly_metrics df by_sku)
   == Qsum (Shipped_Quantity <$> df))%Q.
Proof.
  assert (Total_Revenue <$> calculate_quarterly_metrics df by_sku =
          t_Total_Revenue <$> sorted_totals df by_sku) as ->.
  { by rewrite <- quarterly_metrics_totals, <- list_fmap_compose. }
  assert (Units_Sold <$> calculate_quarterly_metrics df by_sku =
          t_Units_Sold <$> sorted_totals df by_sku) as ->.
  { by rewrite <- quarterly_metrics_totals, <- list_fmap_compose. }
  unfold sorted_totals. split.
  - rewrite (Qsum_Permutation _ _
      (fmap_Permutation t_Total_Revenue _ _ (sort_values_Permutation _ _ _))).
    unfold quarterly_totals. rewrite <- list_fmap_compose.
    transitivity (Qsum ((fun r : order * string => Revenue r.1) <$> add_quarter df)).
    + apply (groupby_Qsum (group_cols by_sku) (fun r : order * string => Revenue r.1)).
    + unfold add_quarter. by rewrite <- list_fmap_compose.
  - rewrite (Qsum_Permutation _ _
      (fmap_Permutation t_Units_Sold _ _ (sort_values_Permutation _ _ _))).
    unfold quarterly_totals. rewrite <- list_fmap_compose.
    transitivity
      (Qsum ((fun r : order * string => Shipped_Quantity r.1) <$> add_quarter df)).
    + apply (groupby_Qsum (group_cols by_sku)
               (fun r : order * string => Shipped_Quantity r.1)).
    + unfold add_quarter. by rewrite <- list_fmap_compose.
Qed.

(** X2. The result of [calculate_quarterly_metrics] has one row for every
    year and quarter (and SKU, when by SKU) that has an order, and no other
    row; a row holds the revenue and the units of the orders of its year and
    quarter (and SKU) added up, and, when not by SKU, the number of their
    distinct SKUs. *)
Theorem quarterly_metrics_one_row_per_quarter (df : list order) (by_sku : bool) :
  let key_of := fun o => group_cols by_sku (o, quarter_label (Month o)) in
  row_key <$> calculate_quarterly_metrics df by_sku ≡ₚ remove_dups (key_of <$> df) /\
  Forall (fun r =>
    let orders := filter (fun o => key_of o = row_key r) df in
    Total_Revenue r = Qsum (Revenue <$> orders) /\
    Units_Sold r = Qsum (Shipped_Quantity <$> orders) /\
    Unique_SKUs r =
      if by_sku then None else Some (length (remove_dups (SKU <$> orders))))
    (calculate_quarterly_metrics df by_sku).
Proof.
  intros key_of. split.
  { rewrite quarterly_metrics_keys. by rewrite add_quarter_keys. }
  apply Forall_forall. intros r Hr.
  apply (list_elem_of_fmap_2 totals_of) in Hr.
  rewrite quarterly_metrics_totals in Hr.
  unfold sorted_totals in Hr. rewrite elem_of_sort_values in Hr.
  unfold quarterly_totals in Hr.
  apply list_elem_of_fmap in Hr as ([k rows] & Hr & Hg).
  apply elem_of_groupby in Hg as [_ ->]. simpl in Hr.
  assert (row_key r = k) as Hk.
  { change (totals_key (totals_of r) = k). rewrite Hr.
    by destruct k as [[? ?] ?]. }
  assert (forall (B : Type) (g : order -> B),
            (fun x : order * string => g x.1)
              <$> filter (fun x => group_cols by_sku x = k) (add_quarter df)
            = g <$> filter (fun o => key_of o = row_key r) df) as Hrows.
  { intros B g. unfold add_quarter.
    rewrite filter_fmap_comm, <- list_fmap_compose, Hk. done. }
  pose proof (f_equal t_Total_Revenue Hr) as Hrev.
  pose proof (f_equal t_Units_Sold Hr) as Hunits.
  pose proof (f_equal t_Unique_SKUs Hr) as Hskus.
  simpl in Hrev, Hunits, Hskus.
  rewrite (Hrows _ Revenue) in Hrev.
  rewrite (Hrows _ Shipped_Quantity) in Hunits.
  rewrite (Hrows _ SKU) in Hskus.
  done.
Qed.

Lemma revenue_desc_total a b : revenue_desc a b = false -> revenue_desc b a = true.
Proof.
  unfold revenue_desc. intros Hab. apply Qle_bool_iff.
  destruct (Qlt_le_dec a b) as [Hlt|Hle]; [by apply Qlt_le_weak|].
  apply Qle_bool_iff in Hle. congruence.
Qed.

Lemma revenue_desc_trans a b c :
  revenue_desc a b = true -> revenue_desc b c = true -> revenue_desc a c = true.
Proof.
  unfold revenue_desc. rewrite !Qle_bool_iff. intros ??. by eapply Qle_trans.
Qed.

(** X3. [get_sku_metrics] lists the SKUs from the highest revenue to the
    lowest: above the row [TOTAL], which is the last one, no row has a
    higher (rounded) revenue than a row before it. *)
Theorem sku_metrics_best_seller_first (df : list order) :
  exists body total,
    get_sku_metrics df = body ++ [total] /\
    s_SKU total = "TOTAL" /\
    StronglySorted (fun a b => (s_Total_Revenue b <= s_Total_Revenue a)%Q) body.
Proof.
  eexists _, _. split; [reflexivity|]. split; [done|].
  eapply StronglySorted_impl;
    [|apply (sort_values_StronglySorted revenue_desc s_Total_Revenue
               revenue_desc_total revenue_desc_trans)].
  intros a b Hab. by apply Qle_bool_iff.
Qed.

(** ** More on [helpers.py] *)

(** X4. [get_month_name] gives [All] for 0 and, for 1 to 12, the English
    name of the month, the one [load_data] writes to [Month_Name]. A number
    above 12 or below -13 gives [Unknown]; the numbers from -12 to -1 do not:
    they count from December backwards, and -13 gives the empty text. *)
Theorem get_month_name_cases (m : Z) :
  (m = 0 -> get_month_name m = "All") /\
  (1 <= m <= 12 -> get_month_name m = month_name m /\ get_month_name m ∈ month_names) /\
  (-12 <= m <= -1 -> get_month_name m = month_name (m + 13)) /\
  (m = -13 -> get_month_name m = "") /\
  (m < -13 \/ 12 < m -> get_month_name m = "Unknown").
Proof.
  split; [by intros ->|]. split.
  { intros Hm.
    assert (m = 1 \/ m = 2 \/ m = 3 \/ m = 4 \/ m = 5 \/ m = 6 \/ m = 7 \/
            m = 8 \/ m = 9 \/ m = 10 \/ m = 11 \/ m = 12) as Hcases by lia.
    repeat (destruct Hcases as [->|Hcases];
            [split; [reflexivity|apply (bool_decide_unpack _); reflexivity]|]).
    subst m. split; [reflexivity|apply (bool_decide_unpack _); reflexivity]. }
  split.
  { intros Hm.
    assert (m = -1 \/ m = -2 \/ m = -3 \/ m = -4 \/ m = -5 \/ m = -6 \/ m = -7 \/
            m = -8 \/ m = -9 \/ m = -10 \/ m = -11 \/ m = -12) as Hcases by lia.
    repeat (destruct Hcases as [->|Hcases]; [reflexivity|]).
    by subst m. }
  split; [by intros ->|].
  intros Hm. unfold get_month_name, py_index.
  destruct (Z.eqb_spec m 0) as [?|_]; [lia|].
  destruct (Z.leb_spec 0 m) as [Hpos|Hneg].
  - rewrite lookup_ge_None_2; [done|]. simpl. lia.
  - destruct (Z.leb_spec (- Z.of_nat (length calendar_month_name)) m) as [Hle|_];
      [|done].
    simpl in Hle. lia.
Qed.

(** ** Facts on [filter_dataframe] *)

Lemma filter_all {A} (P : A -> Prop) `{!forall x, Decision (P x)} (l : list A) :
  (forall x, P x) -> filter P l = l.
Proof.
  intros HP. induction l as [|x l IH]; [done|].
  by rewrite filter_cons_True, IH.
Qed.

Lemma where_column_spec col test df :
  where_column col test df =
  if decide (col ∈ columns df)
  then Some {| columns := columns df;
               rows := filter (fun r : row => test (r !! col) = true) (rows df) |}
  else None.
Proof.
  unfold where_column. destruct (decide (col ∈ columns df)).
  - by rewrite option_guard_True.
  - by rewrite option_guard_False.
Qed.

Lemma filter_dataframe_spec df sku month year state :
  filter_dataframe df sku month year state =
  if decide (Forall (fun c => c ∈ columns df) (columns_read sku month year state))
  then Some {| columns := columns df;
               rows := filter (selected sku month year state) (rows df) |}
  else None.
Proof.
  destruct df as [cols rws].
  unfold filter_dataframe, columns_read, selected. rewrite !where_column_spec.
  repeat case_bool_decide; simpl;
    repeat (rewrite ?where_column_spec; simpl;
            match goal with
            | |- context [decide (?c ∈ cols)] => destruct (decide (c ∈ cols))
            end; simpl);
    rewrite ?list_filter_filter;
    repeat match goal with
    | |- context [decide (Forall ?P ?l)] =>
        destruct (decide (Forall P l)) as [Hall|Hall];
        [rewrite ?Forall_cons, ?Forall_nil in Hall
        |try (destruct Hall; repeat constructor; done)]
    end;
    try done; try tauto;
    f_equal; f_equal; try (symmetry; apply filter_all; tauto);
    apply list_filter_iff; intros r; simpl; tauto.
Qed.

(** X5. [filter_dataframe] keeps the rows that match every selection that
    is made (a SKU, a month, a year, a state; [All] and 0 select everything),
    in their order and under the columns of the table. It reads the column
    of a selection that is made only: without that column it raises, and a
    column of a selection that is not made may be missing. *)
Theorem filter_dataframe_keeps_selected
    (df : frame) (sku : string) (month year : Z) (state : string) :
  ((forall c, c ∈ columns_read sku month year state -> c ∈ columns df) ->
   exists out,
     filter_dataframe df sku month year state = Some out /\
     columns out = columns df /\
     rows out = filter (selected sku month year state) (rows df)) /\
  (forall c, c ∈ columns_read sku month year state -> c ∉ columns df ->
     filter_dataframe df sku month year state = None) /\
  filter_dataframe df "All" 0 0 "All" = Some df.
Proof.
  rewrite filter_dataframe_spec. split; [|split].
  - intros Hcols. rewrite decide_True by by apply Forall_forall.
    by eexists.
  - intros c Hc Hcol. rewrite decide_False; [done|].
    rewrite Forall_forall. intros Hall. by apply Hcol, Hall.
  - done.
Qed.

(** X6. The selections of [filter_dataframe] add up: to filter what it
    returns by the same selections again changes nothing, and to filter by
    the SKU first and by the month, year and state afterwards gives what the
    one call with all four gives, an exception included. *)
Theorem filter_dataframe_composes
    (df : frame) (sku : string) (month year : Z) (state : string) :
  (filter_dataframe df sku month year state
     ≫= fun out => filter_dataframe out sku month year state)
  = filter_dataframe df sku month year state /\
  (filter_dataframe df sku 0 0 "All"
     ≫= fun out => filter_dataframe out "All" month year state)
  = filter_dataframe df sku month year state.
Proof.
  split.
  - rewrite (filter_dataframe_spec df).
    destruct (decide _) as [Hall|Hall]; [|done]. simpl.
    rewrite filter_dataframe_spec. simpl. rewrite decide_True by done.
    do 2 f_equal. rewrite list_filter_filter. apply list_filter_iff. tauto.
  - rewrite !(filter_dataframe_spec df).
    destruct (decide (Forall _ (columns_read sku 0 0 "All"))) as [Hsku|Hsku]; simpl.
    + rewrite filter_dataframe_spec. simpl.
      destruct (decide (Forall _ (columns_read "All" month year state)))
        as [Hrest|Hrest].
      * rewrite decide_True.
        { do 2 f_equal. rewrite list_filter_filter. apply list_filter_iff.
          intros r. unfold selected. tauto. }
        unfold columns_read in *. simpl in *.
        rewrite !app_nil_r in Hsku. by apply Forall_app.
      * rewrite decide_False; [done|]. intros Hall. apply Hrest.
        unfold columns_read in *. simpl. by apply Forall_app in Hall as [_ ?].
    + rewrite decide_False; [done|]. intros Hall. apply Hsku.
      unfold columns_read in *. simpl. rewrite !app_nil_r.
      by apply Forall_app in Hall as [? _].
Qed.

(** ** Facts on [get_daily_sales_by_year] *)

Lemma comparison_leb_lex c1 c2 :
  comparison_leb (lex c1 c2) = true <->
  c1 = Lt \/ (c1 = Eq /\ comparison_leb c2 = true).
Proof. destruct c1; simpl; intuition congruence. Qed.

Lemma comparison_leb_Z a b : comparison_leb (Z.compare a b) = true <-> a <= b.
Proof. destruct (Z.compare_spec a b); simpl; split; first [done | lia]. Qed.

Lemma year_date_leb_spec (a b : Z * (Z * Z * Z)) :
  year_date_leb a b = true <->
  a.1 < b.1 \/
  (a.1 = b.1 /\
   (a.2.1.1 < b.2.1.1 \/
    (a.2.1.1 = b.2.1.1 /\
     (a.2.1.2 < b.2.1.2 \/ (a.2.1.2 = b.2.1.2 /\ a.2.2 <= b.2.2))))).
Proof.
  unfold year_date_leb, date_compare.
  rewrite !comparison_leb_lex, comparison_leb_Z, !Z.compare_lt_iff, !Z.compare_eq_iff.
  done.
Qed.

Lemma year_date_leb_total a b : year_date_leb a b = false -> year_date_leb b a = true.
Proof.
  intros Hab. apply not_true_iff_false in Hab.
  rewrite year_date_leb_spec in *. lia.
Qed.

Lemma year_date_leb_trans a b c :
  year_date_leb a b = true -> year_date_leb b c = true -> year_date_leb a c = true.
Proof. rewrite !year_date_leb_spec. lia. Qed.

(** X7. [get_daily_sales_by_year] has one row for every day that has an
    order, under its year; the rows are in the order of the years and, in a
    year, of the days; and the revenues of the rows add up to the revenue of
    the orders, as do the units (the sums being exact). *)
Theorem daily_sales_by_year_sorted (df : list dated_order) :
  let out := get_daily_sales_by_year df in
  StronglySorted
    (fun a b => d_Year a < d_Year b \/
                (d_Year a = d_Year b /\ date_compare (d_Date a) (d_Date b) <> Gt))
    out /\
  daily_key <$> out ≡ₚ remove_dups ((fun o => (Year (placed o), Date o)) <$> df) /\
  (Qsum (d_Revenue <$> out) == Qsum ((fun o => Revenue (placed o)) <$> df))%Q /\
  (Qsum (d_Shipped_Quantity <$> out)
   == Qsum ((fun o => Shipped_Quantity (placed o)) <$> df))%Q.
Proof.
  intros out. unfold out, get_daily_sales_by_year. split; [|split; [|split] ].
  - eapply StronglySorted_impl;
      [|apply (sort_values_StronglySorted year_date_leb daily_key
                 year_date_leb_total year_date_leb_trans)].
    intros a b Hab. unfold key_le, year_date_leb in Hab.
    apply comparison_leb_lex in Hab as [Hlt|[Heq Hd] ].
    + left. by apply Z.compare_lt_iff.
    + right. split; [by apply Z.compare_eq_iff|].
      simpl in Hd. by destruct (date_compare _ _).
  - rewrite sort_values_Permutation, <- list_fmap_compose.
    erewrite (list_fmap_ext _ fst); [|by intros ? [[? ?] ?] ?]. apply groupby_keys.
  - rewrite (Qsum_Permutation _ _
      (fmap_Permutation d_Revenue _ _ (sort_values_Permutation _ _ _))).
    rewrite <- list_fmap_compose.
    apply (groupby_Qsum (fun o => (Year (placed o), Date o))
             (fun o => Revenue (placed o))).
  - rewrite (Qsum_Permutation _ _
      (fmap_Permutation d_Shipped_Quantity _ _ (sort_values_Permutation _ _ _))).
    rewrite <- list_fmap_compose.
    apply (groupby_Qsum (fun o => (Year (placed o), Date o))
             (fun o => Shipped_Quantity (placed o))).
Qed.

(** ** More on [load_data] *)

Lemma elem_of_rows_assign col f df (r : row) :
  r ∈ rows (assign col f df) <->
  exists r0 : row, r = set_cell col (f r0) r0 /\ r0 ∈ rows df.
Proof. unfold assign. simpl. apply list_elem_of_fmap. Qed.

Lemma elem_of_rows_select keep df (r : row) :
  r ∈ rows (select keep df) <-> keep r = true /\ r ∈ rows df.
Proof.
  unfold select. simpl.
  exact (list_elem_of_filter (fun r : row => keep r = true) (rows df) r).
Qed.

Lemma columns_assign_self col f df : col ∈ columns (assign col f df).
Proof.
  unfold assign. simpl. destruct (decide (col ∈ columns df)); [done|].
  apply elem_of_app. right. by left.
Qed.

Lemma set_cell_at col v (r0 r : row) : r = set_cell col v r0 -> r !! col = v.
Proof. intros ->. apply set_cell_lookup. Qed.

Lemma set_cell_off col v (r0 r : row) c :
  r = set_cell col v r0 -> col <> c -> r !! c = r0 !! c.
Proof. intros -> ?. by apply set_cell_lookup_ne. Qed.

Ltac chase_cells :=
  repeat first
    [ progress unfold purchase_date
    | match goal with
      | E : ?r = set_cell ?col _ _ |- context [?r !! ?c] =>
          first [ rewrite (set_cell_at _ _ _ _ E)
                | rewrite (set_cell_off _ _ _ _ c E) by done ]
      end ].

(** What the second [try] leaves in a row, and the row of a file it made it
    of. *)
Lemma process_rows `{Conversions} dfs df (r : row) :
  process dfs = Some df -> r ∈ rows df ->
  exists r0 : row, (r0 ∈ (dfs ≫= rows)) /\
    (r !! "Purchase Date" = r0 !! "Purchase Date") /\
    (r !! "Merchant SKU" = r0 !! "Merchant SKU") /\
    (exists t, purchase_date r0 = Some t /\
       r !! "Date" = Some (Day (ts_year t) (ts_month t) (ts_day t)) /\
       r !! "Month" = Some (Number (inject_Z (ts_month t))) /\
       r !! "Month_Name" = Some (Text (month_name (ts_month t))) /\
       r !! "Year" = Some (Number (inject_Z (ts_year t)))) /\
    (exists price discount,
       r !! "Item Price" = Some (Number price) /\
       r !! "Item Promo Discount" = Some (Number discount) /\
       r !! "Revenue" = Some (Number (price - discount)%Q)) /\
    (exists quantity, r !! "Shipped Quantity" = Some (Number quantity)) /\
    is_Some (r0 !! "Merchant SKU") /\ not_blank (r0 !! "Merchant SKU") = true.
Proof.
  intros Hp Hr. unfold process in Hp.
  set (d4 := assign "Year" _ _) in Hp.
  destruct (decide ("Item Price" ∈ columns d4));
    [rewrite (option_guard_True ("Item Price" ∈ columns d4)) in Hp by done
    |by rewrite (option_guard_False ("Item Price" ∈ columns d4)) in Hp].
  set (d5 := assign "Item Price" _ d4) in Hp.
  destruct (decide ("Item Promo Discount" ∈ columns d5));
    [rewrite (option_guard_True ("Item Promo Discount" ∈ columns d5)) in Hp by done
    |by rewrite (option_guard_False ("Item Promo Discount" ∈ columns d5)) in Hp].
  set (d7 := assign "Revenue" _ _) in Hp.
  destruct (decide ("Shipped Quantity" ∈ columns d7));
    [rewrite (option_guard_True ("Shipped Quantity" ∈ columns d7)) in Hp by done
    |by rewrite (option_guard_False ("Shipped Quantity" ∈ columns d7)) in Hp].
  injection Hp as <-.
  apply elem_of_rows_select in Hr as [Hblank Hr].
  apply elem_of_rows_select in Hr as [Hna Hr].
  apply elem_of_rows_assign in Hr as (r7 & E8 & Hr).
  apply elem_of_rows_assign in Hr as (r6 & E7 & Hr).
  apply elem_of_rows_assign in Hr as (r5 & E6 & Hr).
  apply elem_of_rows_assign in Hr as (r4 & E5 & Hr).
  apply elem_of_rows_assign in Hr as (r3 & E4 & Hr).
  apply elem_of_rows_assign in Hr as (r2 & E3 & Hr).
  apply elem_of_rows_assign in Hr as (r1 & E2 & Hr).
  apply elem_of_rows_assign in Hr as (r0 & E1 & Hr).
  clear d4 d5 d7 e e0 e1.
  apply andb_prop in Hna as [Hyear Hsku].
  exists r0. split; [done|].
  revert Hblank Hyear Hsku. chase_cells.
  intros Hblank Hyear Hsku.
  do 2 (split; [done|]).
  split.
  { destruct (r0 !! "Purchase Date") as [ [s|q|t|y m d] | ]; simpl in Hyear; try done. by exists t. }
  split.
  { unfold to_numeric_or_zero. simpl. by eexists _, _. }
  split; [by eexists|].
  split; [|done]. by destruct (r0 !! "Merchant SKU").
Qed.

(** X8. The files [load_data] skips are these and no others: a file that
    cannot be read, a file without the column of the purchase date or
    without the column of the merchant SKU, and a file in which one purchase
    date, of whatever row, cannot be read as a timestamp. *)
Theorem parse_file_fails_iff `{Conversions} (file : source_file) :
  fails file <->
  match read_csv file with
  | None => True
  | Some df =>
      ("Purchase Date" ∉ columns df) \/ ("Merchant SKU" ∉ columns df) \/
      exists (r : row) v,
        r ∈ rows df /\ r !! "Purchase Date" = Some v /\ to_datetime_value v = None
  end.
Proof.
  unfold fails, parse_file, to_datetime.
  destruct (read_csv file) as [df|]; simpl; [|done].
  destruct (decide ("Purchase Date" ∈ columns df)) as [Hdate|Hdate].
  2: { rewrite (option_guard_False ("Purchase Date" ∈ columns df)) by done.
       split; [by left|done]. }
  rewrite (option_guard_True ("Purchase Date" ∈ columns df)) by done.
  destruct (mapM _ (rows df)) as [rows'|] eqn:Hrows; simpl.
  - destruct (decide ("Merchant SKU" ∈ columns df)) as [Hsku|Hsku].
    + rewrite option_guard_True by done. split; [done|].
      intros [?|[?|(r & v & Hr & Hv & Hbad)] ]; [done..|].
      assert (mapM (fun r : row =>
                match r !! "Purchase Date" with
                | Some v => t ← to_datetime_value v;
                            Some (<["Purchase Date" := Instant t]> r)
                | None => Some r
                end) (rows df) = None) as Hnone.
      { apply mapM_None_2, Exists_exists. exists r. split; [done|].
        by rewrite Hv, Hbad. }
      congruence.
    + rewrite option_guard_False by done. split; [by right; left|done].
  - split; [|done]. intros _. right. right.
    apply mapM_None_1, Exists_exists in Hrows as (r & Hr & Hbad).
    destruct (r !! "Purchase Date") as [v|] eqn:Hv; [|done].
    exists r, v. split; [done|]. split; [done|].
    by destruct (to_datetime_value v).
Qed.

(** X9. Of a file that is not skipped [load_data] takes the rows that have
    a purchase date, in their order, and drops the others: the date is read
    as a timestamp, the merchant SKU is stripped of the blanks around it (and
    missing where it is no text), and every other cell is as in the file. *)
Theorem parse_file_keeps_dated_rows `{Conversions}
    (file : source_file) (df df' : frame) :
  read_csv file = Some df -> parse_file file = Some df' ->
  columns df' = columns df /\
  Forall2 (fun (r r' : row) =>
             (exists t, purchase_date r' = Some t) /\
             r' !! "Merchant SKU" = str_strip (r !! "Merchant SKU") /\
             forall c, c <> "Purchase Date" -> c <> "Merchant SKU" ->
                       r' !! c = r !! c)
          (filter (fun r : row => is_Some (r !! "Purchase Date")) (rows df))
          (rows df').
Proof.
  intros Hdf Hparse.
  assert (~ fails file) as Hok by (unfold fails; by rewrite Hparse).
  assert ("Purchase Date" ∈ columns df) as Hdate.
  { destruct (decide ("Purchase Date" ∈ columns df)) as [|Hno]; [done|].
    destruct Hok. unfold fails, parse_file, to_datetime. rewrite Hdf. simpl.
    by rewrite (option_guard_False ("Purchase Date" ∈ columns df)). }
  assert ("Merchant SKU" ∈ columns df) as Hsku.
  { destruct (decide ("Merchant SKU" ∈ columns df)) as [|Hno]; [done|].
    destruct Hok. unfold fails, parse_file, to_datetime. rewrite Hdf. simpl.
    rewrite (option_guard_True ("Purchase Date" ∈ columns df)) by done.
    destruct (mapM _ (rows df)); simpl; [|done].
    by rewrite option_guard_False. }
  destruct (missing_timestamp_drops_row file df Hdf Hdate Hsku) as (df2 & Hdf2 & Hrows).
  { apply Forall_forall. intros r Hr v Hv.
    destruct (to_datetime_value v) as [t|] eqn:Ht; [by eexists|].
    destruct Hok. by eapply unreadable_timestamp_fails_file. }
  rewrite Hparse in Hdf2. injection Hdf2 as <-. split; [|done].
  revert Hparse. unfold parse_file, to_datetime. rewrite Hdf. simpl.
  rewrite (option_guard_True ("Purchase Date" ∈ columns df)) by done.
  destruct (mapM _ (rows df)); simpl; [|done].
  rewrite option_guard_True by done. intros [= <-].
  unfold assign. simpl. by rewrite decide_True.
Qed.

Lemma parse_file_keeps_dated_rows_witness :
  exists df df',
    read_csv one_missing_timestamp = Some df /\
    parse_file (H := sample_conversions) one_missing_timestamp = Some df' /\
    length (rows df) = 2%nat /\ length (rows df') = 1%nat /\
    columns df' = columns df.
Proof.
  eexists _, _.
  assert (read_csv one_missing_timestamp = Some _) as Hdf by reflexivity.
  assert (parse_file (H := sample_conversions) one_missing_timestamp = Some _)
    as Hparse by (vm_compute; reflexivity).
  split; [exact Hdf|]. split; [exact Hparse|].
  split; [reflexivity|]. split; [reflexivity|].
  exact (proj1 (parse_file_keeps_dated_rows (H := sample_conversions) _ _ _ Hdf Hparse)).
Defined.

Lemma parse_file_merchant_sku `{Conversions} file df (r : row) :
  parse_file file = Some df -> r ∈ rows df ->
  r !! "Merchant SKU" = None \/ exists sku, r !! "Merchant SKU" = Some (Text sku).
Proof.
  unfold parse_file. destruct (read_csv file) as [df0|]; simpl; [|done].
  destruct (to_datetime "Purchase Date" df0) as [df1|]; simpl; [|done].
  set (df2 := select _ df1).
  destruct (decide ("Merchant SKU" ∈ columns df2));
    [rewrite (option_guard_True ("Merchant SKU" ∈ columns df2)) by done
    |by rewrite (option_guard_False ("Merchant SKU" ∈ columns df2))].
  intros [= <-] (r0 & -> & _)%elem_of_rows_assign.
  rewrite set_cell_lookup. unfold str_strip.
  destruct (r0 !! "Merchant SKU") as [ [s|q|t|y m d] | ]; eauto.
Qed.

Lemma loaded_row_ext (r r' : row) :
  (forall c, c <> "SKU" -> c <> "Shipping State" -> c <> "State Code" ->
             r' !! c = r !! c) ->
  loaded_row r -> loaded_row r'.
Proof.
  intros Hext. unfold loaded_row, purchase_date. by rewrite !Hext by done.
Qed.

(** X10. Every row of the table of [load_data] has a purchase date that was
    read, with its day, month, name of the month and year beside it; a
    price, a discount and a quantity that are numbers (0 where the file had
    none that can be read); a revenue that is the price less the discount;
    and a merchant SKU that is a text and not blank. *)
Theorem load_data_rows_are_complete `{Conversions}
    (_sku_manager : option SKUManager) (csv_files : list source_file) :
  Forall loaded_row (rows (load_data _sku_manager csv_files).1).
Proof.
  unfold load_data. rewrite read_files_spec.
  destruct (omap parse_file csv_files) as [|d ds] eqn:Hdfs; [by constructor|].
  rewrite <- Hdfs. destruct (process _) as [df|] eqn:Hp; [|by constructor].
  assert (Forall loaded_row (rows df)) as Hdf.
  { apply Forall_forall. intros r Hr.
    destruct (process_rows _ _ _ Hp Hr)
      as (r0 & Hr0 & Hdate & Hsku & (t & Ht & Hderived) & Hnum & Hqty & Hsome & Hblank).
    apply list_elem_of_bind in Hr0 as (df0 & Hr0 & Hdf0).
    apply list_elem_of_omap in Hdf0 as (file & _ & Hfile).
    split; [|split; [done|split; [done|] ] ].
    - exists t. split; [|done]. unfold purchase_date in *. by rewrite Hdate.
    - destruct (parse_file_merchant_sku _ _ _ Hfile Hr0) as [Hnone|[sku Hs] ].
      + rewrite Hnone in Hsome. by destruct Hsome.
      + exists sku. split; [by rewrite Hsku|].
        rewrite Hs in Hblank. simpl in Hblank.
        apply negb_true_iff, String.eqb_neq in Hblank. done. }
  destruct _sku_manager as [manager|]; simpl; [|done].
  destruct (decide ("Merchant SKU" ∈ columns df)) as [Hcol|Hcol].
  - rewrite map_skus_in_df_rows by done.
    destruct (decide (filters_states manager df)).
    + apply Forall_fmap, Forall_forall.
      intros r [_ Hr]%list_elem_of_filter. simpl.
      apply (loaded_row_ext r); [|by eapply Forall_forall in Hdf].
      intros c ???. by rewrite with_state_lookup_ne, with_sku_lookup_ne.
    + apply Forall_fmap, Forall_forall. intros r Hr. simpl.
      apply (loaded_row_ext r); [|by eapply Forall_forall in Hdf].
      intros c ???. by rewrite with_sku_lookup_ne.
  - unfold map_skus_in_df. by rewrite decide_False.
Qed.

Lemma omap_nil_iff {A B} (f : A -> option B) (l : list A) :
  omap f l = [] <-> Forall (fun x => f x = None) l.
Proof.
  induction l as [|x l IH]; simpl; [by split; [constructor|]|].
  destruct (f x) eqn:Hx; simpl.
  - split; [done|]. intros Hall. apply Forall_cons in Hall as [? _]. congruence.
  - rewrite IH. split; [by constructor|]. by intros [_ ?]%Forall_cons.
Qed.

Lemma filter_fails_all `{Conversions} files :
  Forall fails files -> filter fails files = files.
Proof.
  induction 1 as [|f l Hf _ IH]; [done|].
  by rewrite filter_cons_True, IH.
Qed.

Lemma file_errors_only `{Conversions} (files : list source_file) d :
  d ∈ (fun f => ErrorReadingFile (path f)) <$> files ->
  d <> NoCSVFiles /\ d <> ErrorProcessingData.
Proof. by intros (f & -> & _)%list_elem_of_fmap. Qed.

(** X11. Where no file can be taken (the directory has none, or every file
    is skipped) [load_data] gives the empty table, and after the message of
    every file one message more, that no CSV file was found; it shows that
    message in no other case. *)
Theorem load_data_without_files `{Conversions}
    (_sku_manager : option SKUManager) (csv_files : list source_file) :
  (Forall fails csv_files ->
   load_data _sku_manager csv_files =
     (empty_frame,
      ((fun f => ErrorReadingFile (path f)) <$> csv_files) ++ [NoCSVFiles])) /\
  (NoCSVFiles ∈ (load_data _sku_manager csv_files).2 -> Forall fails csv_files).
Proof.
  unfold load_data. rewrite read_files_spec. split.
  - intros Hall. rewrite (proj2 (omap_nil_iff _ _) Hall).
    by rewrite filter_fails_all.
  - destruct (omap parse_file csv_files) as [|d ds] eqn:Hdfs.
    { intros _. by apply omap_nil_iff. }
    destruct (process _); simpl.
    + intros Hd. by apply file_errors_only in Hd as [? _].
    + rewrite elem_of_app, list_elem_of_singleton.
      intros [Hd|?]; [|done]. by apply file_errors_only in Hd as [? _].
Qed.

Lemma process_None_iff `{Conversions} dfs :
  process dfs = None <->
  exists c, c ∈ numeric_columns /\ c ∉ columns (concat dfs).
Proof.
  unfold process.
  set (d4 := assign "Year" _ _).
  assert (forall c, c ∈ numeric_columns -> c ∈ columns d4 <-> c ∈ columns (concat dfs))
    as H4.
  { intros c Hc. unfold d4. rewrite !assign_other_column; [done|..];
      intros ->; apply (bool_decide_pack _) in Hc; done. }
  set (d5 := assign "Item Price" _ d4).
  set (d7 := assign "Revenue" _ _).
  assert ("Item Promo Discount" ∈ columns d5 <->
          "Item Promo Discount" ∈ columns (concat dfs)) as H5.
  { unfold d5. rewrite assign_other_column by done.
    apply H4, (bool_decide_unpack _). reflexivity. }
  assert ("Shipped Quantity" ∈ columns d7 <->
          "Shipped Quantity" ∈ columns (concat dfs)) as H7.
  { unfold d7, d5. rewrite !assign_other_column by done.
    apply H4, (bool_decide_unpack _). reflexivity. }
  assert ("Item Price" ∈ columns d4 <-> "Item Price" ∈ columns (concat dfs)) as H4'.
  { apply H4, (bool_decide_unpack _). reflexivity. }
  clearbody d4 d5 d7.
  destruct (decide ("Item Price" ∈ columns d4)) as [Hp|Hp].
  2: { rewrite (option_guard_False ("Item Price" ∈ columns d4)) by done.
       split; [intros _|done]. exists "Item Price".
       split; [apply (bool_decide_unpack _); reflexivity|by rewrite <- H4']. }
  rewrite (option_guard_True ("Item Price" ∈ columns d4)) by done.
  destruct (decide ("Item Promo Discount" ∈ columns d5)) as [Hd|Hd].
  2: { rewrite (option_guard_False ("Item Promo Discount" ∈ columns d5)) by done.
       split; [intros _|done]. exists "Item Promo Discount".
       split; [apply (bool_decide_unpack _); reflexivity|by rewrite <- H5]. }
  rewrite (option_guard_True ("Item Promo Discount" ∈ columns d5)) by done.
  destruct (decide ("Shipped Quantity" ∈ columns d7)) as [Hq|Hq].
  2: { rewrite (option_guard_False ("Shipped Quantity" ∈ columns d7)) by done.
       split; [intros _|done]. exists "Shipped Quantity".
       split; [apply (bool_decide_unpack _); reflexivity|by rewrite <- H7]. }
  rewrite (option_guard_True ("Shipped Quantity" ∈ columns d7)) by done.
  split; [done|]. intros (c & Hc & Hno). exfalso.
  unfold numeric_columns in Hc.
  rewrite !elem_of_cons, elem_of_nil in Hc.
  destruct Hc as [-> | [-> | [-> | [] ] ] ]; tauto.
Qed.

Lemma elem_of_columns_concat c dfs :
  c ∈ columns (concat dfs) <-> Exists (fun df => c ∈ columns df) dfs.
Proof.
  unfold concat. simpl. rewrite elem_of_remove_dups, list_elem_of_bind, Exists_exists.
  split; intros (df & ? & ?); by exists df.
Qed.

(** X12. Where some file is taken, [load_data] fails on the columns if and
    only if one of the columns of the price, the discount and the quantity
    is in none of the files taken: it then shows the message of the failure
    and gives the empty table. A column that one file has is enough for
    the rows of all the files. *)
Theorem load_data_missing_numeric_column `{Conversions}
    (_sku_manager : option SKUManager) (csv_files : list source_file) :
  Exists (fun f => is_Some (parse_file f)) csv_files ->
  (ErrorProcessingData ∈ (load_data _sku_manager csv_files).2 <->
   exists c, c ∈ numeric_columns /\
     Forall (fun df => c ∉ columns df) (omap parse_file csv_files)) /\
  (ErrorProcessingData ∈ (load_data _sku_manager csv_files).2 ->
   (load_data _sku_manager csv_files).1 = empty_frame).
Proof.
  intros Hsome. unfold load_data. rewrite read_files_spec.
  destruct (omap parse_file csv_files) as [|d ds] eqn:Hdfs.
  { apply omap_nil_iff in Hdfs. apply Exists_exists in Hsome as (f & Hf & [df Hdf]).
    rewrite Forall_forall in Hdfs. specialize (Hdfs f Hf). congruence. }
  rewrite <- Hdfs. clear Hdfs.
  destruct (process _) as [df|] eqn:Hp; simpl.
  - split.
    + split.
      * intros Hd. by apply file_errors_only in Hd as [_ ?].
      * intros (c & Hc & Hall). exfalso.
        assert (process (omap parse_file csv_files) = None) as Hnone; [|congruence].
        apply process_None_iff. exists c. split; [done|].
        rewrite elem_of_columns_concat. by apply Forall_Exists_neg.
    + intros Hd. by apply file_errors_only in Hd as [_ ?].
  - split; [|done]. split.
    + intros _. apply process_None_iff in Hp as (c & Hc & Hno).
      exists c. split; [done|].
      rewrite elem_of_columns_concat in Hno. by apply Forall_Exists_neg.
    + intros _. rewrite elem_of_app, list_elem_of_singleton. by right.
Qed.

Lemma load_data_missing_numeric_column_witness :
  Exists (fun f => is_Some (parse_file (H := sample_conversions) f)) [no_price] /\
  ErrorProcessingData ∈ (load_data (H := sample_conversions) None [no_price]).2 /\
  (load_data (H := sample_conversions) None [no_price]).1 = empty_frame.
Proof.
  assert (Exists (fun f => is_Some (parse_file (H := sample_conversions) f)) [no_price])
    as Hsome.
  { apply Exists_cons_hd. vm_compute. by eexists. }
  split; [exact Hsome|].
  destruct (load_data_missing_numeric_column (H := sample_conversions)
              None [no_price] Hsome) as [Hiff Hempty].
  assert (ErrorProcessingData ∈
            (load_data (H := sample_conversions) None [no_price]).2) as Hshown.
  { apply Hiff. exists "Item Price".
    split; [apply (bool_decide_unpack _); reflexivity|].
    apply (bool_decide_unpack _). vm_compute. exact I. }
  split; [exact Hshown|exact (Hempty Hshown)].
Defined.

(** ** Facts on [get_year_colors] and [get_source_files_hash] *)

Lemma StronglySorted_strict {A} (R : A -> A -> Prop) (l : list A) :
  StronglySorted R l -> NoDup l -> StronglySorted (fun a b => R a b /\ a <> b) l.
Proof.
  induction 1 as [|a l _ IH Ha]; intros Hnd; [constructor|].
  apply NoDup_cons in Hnd as [Hnotin Hnd]. constructor; [by apply IH|].
  apply Forall_forall. intros b Hb. split.
  - by eapply Forall_forall in Ha.
  - by intros ->.
Qed.

Lemma StronglySorted_filter {A} (R : A -> A -> Prop) (P : A -> Prop)
    `{!forall x, Decision (P x)} (l : list A) :
  StronglySorted R l -> StronglySorted R (filter P l).
Proof.
  induction 1 as [|a l _ IH Ha]; [constructor|].
  rewrite filter_cons. destruct (decide (P a)); [|done].
  constructor; [done|]. apply Forall_forall.
  intros b [_ Hb]%list_elem_of_filter. by eapply Forall_forall in Ha.
Qed.

(** Two sorted lists of the same elements are one list, where no two
    elements are each before the other. *)
Lemma StronglySorted_Permutation_eq {A} (R : A -> A -> Prop) (l1 l2 : list A) :
  (forall a b, a ∈ l1 -> b ∈ l1 -> R a b -> R b a -> a = b) ->
  StronglySorted R l1 -> StronglySorted R l2 -> l1 ≡ₚ l2 -> l1 = l2.
Proof.
  intros Hanti Hl1. revert l2 Hanti.
  induction Hl1 as [|a l1 _ IH Ha]; intros l2 Hanti Hl2 Hperm.
  { by apply Permutation_nil_l in Hperm. }
  destruct Hl2 as [|b l2 Hl2 Hb].
  { by apply Permutation_nil_r in Hperm. }
  assert (a = b) as <-.
  { assert (a ∈ b :: l2) as Hab by (rewrite <- Hperm; by left).
    assert (b ∈ a :: l1) as Hba by (rewrite Hperm; by left).
    apply elem_of_cons in Hab as [?|Hab]; [done|].
    apply elem_of_cons in Hba as [?|Hba]; [done|].
    apply Hanti; [by left|by right| |].
    - by eapply Forall_forall in Ha.
    - by eapply Forall_forall in Hb. }
  f_equal. apply IH; [|done|by apply Permutation_cons_inv in Hperm].
  intros x y ??. apply Hanti; by right.
Qed.

Lemma Z_leb_total (a b : Z) : Z.leb a b = false -> Z.leb b a = true.
Proof. rewrite Z.leb_gt, Z.leb_le. lia. Qed.

Lemma Z_leb_trans (a b c : Z) :
  Z.leb a b = true -> Z.leb b c = true -> Z.leb a c = true.
Proof. rewrite !Z.leb_le. lia. Qed.

Lemma all_years_NoDup df : NoDup (all_years df).
Proof. unfold all_years. rewrite sort_values_Permutation. apply NoDup_remove_dups. Qed.

Section DictOf.
Context {K V : Type} `{Countable K}.

Local Abbreviation put := (fun (d : gmap K V) (kv : K * V) => <[kv.1 := kv.2]> d).

Lemma dict_zip_lookup_other (ks : list K) (vs : list V) (d : gmap K V) k :
  k ∉ ks -> foldl put d (zip ks vs) !! k = d !! k.
Proof.
  revert vs d. induction ks as [|k0 ks IH]; intros vs d Hk; [done|].
  apply not_elem_of_cons in Hk as [Hne Hk].
  destruct vs as [|v vs]; [done|]. simpl.
  rewrite IH by done. by apply lookup_insert_ne.
Qed.

Lemma dict_zip_lookup (ks : list K) (vs : list V) (d : gmap K V) i k :
  NoDup ks -> ks !! i = Some k ->
  foldl put d (zip ks vs) !! k =
  match vs !! i with Some v => Some v | None => d !! k end.
Proof.
  intros Hnd. revert vs d i.
  induction Hnd as [|k0 ks Hk0 _ IH]; intros vs d i Hi; [done|].
  destruct vs as [|v vs]; [by destruct i|]. simpl.
  destruct i as [|i]; simpl in *.
  - injection Hi as ->. rewrite dict_zip_lookup_other by done.
    apply lookup_insert_eq.
  - rewrite (IH _ _ i) by done.
    destruct (vs !! i); [done|]. apply lookup_insert_ne.
    intros ->. apply list_elem_of_lookup_2 in Hi. by apply Hk0.
Qed.
End DictOf.

(** X13. [get_year_colors] gives the years of the table, in ascending
    order, the colours of its list, in the order of the list: the first
    year the first colour, and so on. The list has six colours, so a
    seventh year and the years after it have no entry in the dictionary,
    which the charts read as [year_colors[year]]; a year that is not in the
    table has none either. *)
Theorem year_colors_by_rank (df : list order) :
  StronglySorted Z.lt (all_years df) /\
  (forall year, year ∈ all_years df <-> exists o, o ∈ df /\ Year o = year) /\
  (forall i year, all_years df !! i = Some year ->
     get_year_colors df !! year = dark_colors !! i) /\
  (forall year, year ∉ all_years df -> get_year_colors df !! year = None).
Proof.
  split; [|split; [|split] ].
  - eapply StronglySorted_impl;
      [|apply StronglySorted_strict;
         [apply (sort_values_StronglySorted Z.leb id Z_leb_total Z_leb_trans)
         |apply all_years_NoDup] ].
    intros a b [Hab Hne]. unfold key_le in Hab. simpl in Hab.
    apply Z.leb_le in Hab. lia.
  - intros year. unfold all_years.
    rewrite elem_of_sort_values, elem_of_remove_dups, list_elem_of_fmap.
    split; intros (o & ? & ?); by exists o.
  - intros i year Hi. unfold get_year_colors, dict_of.
    rewrite (dict_zip_lookup _ _ _ i) by (done || apply all_years_NoDup).
    rewrite lookup_take_lt by (by eapply lookup_lt_Some).
    rewrite lookup_empty. by destruct (dark_colors !! i).
  - intros year Hyear. unfold get_year_colors, dict_of.
    by rewrite dict_zip_lookup_other.
Qed.

Lemma join_filter {A} (f : A -> string) (P : A -> Prop)
    `{!forall x, Decision (P x)} (l : list A) :
  (forall x, ~ P x -> f x = "") ->
  join (f <$> l) = join (f <$> filter P l).
Proof.
  intros Hf. induction l as [|x l IH]; [done|].
  rewrite filter_cons. destruct (decide (P x)) as [HP|HP];
    rewrite !fmap_cons; cbn [join].
  - by rewrite IH.
  - by rewrite (Hf x HP), IH.
Qed.

Lemma string_leb_total a b : String.leb a b = false -> String.leb b a = true.
Proof. destruct (String.leb_total a b); [congruence|done]. Qed.

Lemma string_leb_trans a b c :
  String.leb a b = true -> String.leb b c = true -> String.leb a c = true.
Proof.
  intros Hab Hbc. apply Is_true_true.
  change (String.le a c). transitivity b; by apply Is_true_true.
Qed.

Lemma NoDup_fmap_inj {A B} (f : A -> B) (l : list A) a b :
  NoDup (f <$> l) -> a ∈ l -> b ∈ l -> f a = f b -> a = b.
Proof.
  induction l as [|x l IH]; intros Hnd Ha Hb Hab; [by apply elem_of_nil in Ha|].
  rewrite fmap_cons in Hnd. apply NoDup_cons in Hnd as [Hx Hnd].
  apply elem_of_cons in Ha as [->|Ha]; apply elem_of_cons in Hb as [->|Hb].
  - done.
  - destruct Hx. rewrite Hab. by apply list_elem_of_fmap_2.
  - destruct Hx. rewrite <- Hab. by apply list_elem_of_fmap_2.
  - by apply IH.
Qed.

(** X14. The hash of the source files is that of the files [os.stat] can
    read, with their times and sizes, whatever the order [glob.glob] lists
    them in: two listings (of distinct paths) with the same such files have
    the same hash, and a file [os.stat] raises on adds nothing to it.
    Without the directory there is no hash. *)
Theorem source_files_hash_ignores_order `{Digest}
    (source_exists : bool) (found found' : list listed_file) :
  NoDup (file_path <$> found) ->
  filter (fun f => is_Some (os_stat f)) found
    ≡ₚ filter (fun f => is_Some (os_stat f)) found' ->
  get_source_files_hash source_exists found =
  get_source_files_hash source_exists found' /\
  get_source_files_hash false found = None.
Proof.
  intros Hnd Hperm. split; [|done].
  unfold get_source_files_hash. destruct source_exists; [|done].
  assert (forall l : list listed_file,
            join (hash_update <$> l) =
            join (hash_update <$> filter (fun f => is_Some (os_stat f)) l)) as Hjoin.
  { intros l. apply join_filter. intros f Hf. unfold hash_update.
    destruct (os_stat f); [by destruct Hf|done]. }
  rewrite (Hjoin (sort_values String.leb file_path found)),
          (Hjoin (sort_values String.leb file_path found')).
  assert (filter (fun f => is_Some (os_stat f)) (sort_values String.leb file_path found) =
          filter (fun f => is_Some (os_stat f)) (sort_values String.leb file_path found'))
    as ->; [|done].
  apply (StronglySorted_Permutation_eq (key_le String.leb file_path)).
  - intros a b [_ Ha]%list_elem_of_filter [_ Hb]%list_elem_of_filter Hab Hba.
    apply elem_of_sort_values in Ha, Hb.
    apply (NoDup_fmap_inj file_path found); [done..|].
    by apply String.leb_antisym.
  - apply StronglySorted_filter, sort_values_StronglySorted.
    + apply string_leb_total.
    + apply string_leb_trans.
  - apply StronglySorted_filter, sort_values_StronglySorted.
    + apply string_leb_total.
    + apply string_leb_trans.
  - by rewrite !sort_values_Permutation.
Qed.

Lemma source_files_hash_witness :
  NoDup (file_path <$>
           [ mk_listed "source/b.csv" (Some (mk_stat "1700000001.0" 64));
             mk_listed "source/c.csv" None;
             mk_listed "source/a.csv" (Some (mk_stat "1700000000.5" 120)) ]) /\
  get_source_files_hash (H := sample_digest) true
    [ mk_listed "source/b.csv" (Some (mk_stat "1700000001.0" 64));
      mk_listed "source/c.csv" None;
      mk_listed "source/a.csv" (Some (mk_stat "1700000000.5" 120)) ] =
  get_source_files_hash (H := sample_digest) true
    [ mk_listed "source/a.csv" (Some (mk_stat "1700000000.5" 120));
      mk_listed "source/b.csv" (Some (mk_stat "1700000001.0" 64)) ].
Proof.
  assert (NoDup (file_path <$>
            [ mk_listed "source/b.csv" (Some (mk_stat "1700000001.0" 64));
              mk_listed "source/c.csv" None;
              mk_listed "source/a.csv" (Some (mk_stat "1700000000.5" 120)) ]))
    as Hnd by (apply (bool_decide_unpack _); reflexivity).
  split; [exact Hnd|].
  refine (proj1 (source_files_hash_ignores_order (H := sample_digest) true _ _ Hnd _)).
  rewrite !filter_cons. simpl. apply Permutation_swap.
Defined.

(** ** More on [sku_manager.py] *)

(** X15. [_find_state_sheet] gives the first of the sheets whose name is,
    capitals apart, one of [us state], [us_state], [usstate] and [state], and
    none where no sheet has such a name: the six names it lists stand for
    these four, in every spelling of capitals. *)
Theorem find_state_sheet_first_match (available_sheets : list string) :
  (forall sheet,
     is_state_sheet sheet <->
     lower sheet ∈ ["us state"; "us_state"; "usstate"; "state"]) /\
  match _find_state_sheet available_sheets with
  | Some sheet =>
      exists before after,
        available_sheets = before ++ sheet :: after /\
        is_state_sheet sheet /\
        Forall (fun s => ~ is_state_sheet s) before
  | None => Forall (fun s => ~ is_state_sheet s) available_sheets
  end.
Proof.
  split.
  - intros sheet. unfold is_state_sheet, state_sheet_variants.
    rewrite !Exists_cons, Exists_nil, !elem_of_cons, elem_of_nil.
    change (lower "us state") with "us state".
    change (lower "US State") with "us state".
    change (lower "US STATE") with "us state".
    change (lower "us_state") with "us_state".
    change (lower "USState") with "usstate".
    change (lower "State") with "state".
    intuition congruence.
  - induction available_sheets as [|sheet sheets IH]; simpl; [constructor|].
    destruct (decide (is_state_sheet sheet)) as [Hs|Hs].
    + exists [], sheets. by repeat split.
    + destruct (_find_state_sheet sheets) as [found|].
      * destruct IH as (before & after & -> & Hfound & Hbefore).
        exists (sheet :: before), after. repeat split; [done|].
        by constructor.
      * by constructor.
Qed.

(** X16. [get_valid_states] lists the state codes of the legend, each once,
    in ascending order. *)
Theorem valid_states_sorted (self : SKUManager) :
  StronglySorted (fun a b => String.le a b /\ a <> b) (get_valid_states self) /\
  (forall code, code ∈ get_valid_states self <-> code ∈ valid_state_codes self).
Proof.
  unfold get_valid_states. split.
  - apply StronglySorted_strict.
    + eapply StronglySorted_impl;
        [|apply (sort_values_StronglySorted String.leb id
                   string_leb_total string_leb_trans)].
      intros a b Hab. by apply Is_true_true.
    + rewrite sort_values_Permutation. apply NoDup_elements.
  - intros code. by rewrite elem_of_sort_values, elem_of_elements.
Qed.

Lemma map_state_valid `{Conversions} self v code :
  map_state self v = Some code -> code ∈ valid_state_codes self.
Proof.
  unfold map_state. destruct v as [v|]; [|done].
  destruct (state_name_to_code self !! _) as [c|]; [|done].
  destruct (decide (c ∈ valid_state_codes self)); [|done]. by intros [= <-].
Qed.

(** X17. Where [map_skus_in_df] filters by the state, the table it returns
    has in [Shipping State] of every row a state code of the legend, and no
    column [State Code]: the one it adds it drops again, and with it a
    column of that name the table came with. Its other columns are those
    of the table and [SKU]. *)
Theorem mapped_states_are_valid_codes `{Conversions} (self : SKUManager) (df : frame) :
  "Merchant SKU" ∈ columns df -> filters_states self df ->
  ("State Code" ∉ columns (map_skus_in_df self df)) /\
  ("SKU" ∈ columns (map_skus_in_df self df)) /\
  (forall c, c <> "SKU" -> c <> "State Code" ->
     c ∈ columns (map_skus_in_df self df) <-> c ∈ columns df) /\
  Forall (fun r : row =>
            r !! "State Code" = None /\
            exists code, r !! "Shipping State" = Some (Text code) /\
                         code ∈ valid_state_codes self)
         (rows (map_skus_in_df self df)).
Proof.
  intros Hsku Hf. split; [|split; [|split] ].
  - unfold map_skus_in_df, filters_states in *.
    rewrite decide_True by done.
    rewrite decide_True by (by rewrite assign_other_column).
    unfold drop_column. simpl. rewrite list_elem_of_filter. tauto.
  - unfold map_skus_in_df, filters_states in *.
    rewrite decide_True by done.
    rewrite decide_True by (by rewrite assign_other_column).
    unfold drop_column. cbn [columns]. rewrite list_elem_of_filter.
    split; [done|].
    apply assign_other_column; [done|]. cbn [select columns].
    apply assign_other_column; [done|]. apply columns_assign_self.
  - intros c Hc1 Hc2. unfold map_skus_in_df, filters_states in *.
    rewrite decide_True by done.
    rewrite decide_True by (by rewrite assign_other_column).
    unfold drop_column. cbn [columns]. rewrite list_elem_of_filter.
    destruct (decide (c = "Shipping State")) as [->|Hc3].
    + split; [intros _; tauto|]. intros _. split; [done|].
      apply columns_assign_self.
    + rewrite assign_other_column by done. cbn [select columns].
      rewrite !assign_other_column by done. tauto.
  - rewrite map_skus_in_df_rows, decide_True by done.
    apply Forall_fmap, Forall_forall. intros r [Hr _]%list_elem_of_filter. simpl.
    split.
    + unfold with_state. apply lookup_delete_eq.
    + rewrite with_state_lookup_state, with_sku_lookup_ne by done.
      destruct Hr as [code Hcode]. exists code. rewrite Hcode.
      split; [done|]. by eapply map_state_valid.
Qed.

Lemma mapped_states_witness :
  "Merchant SKU" ∈ columns two_orders /\
  filters_states legend two_orders /\
  ("State Code" ∉ columns (map_skus_in_df (H := sample_conversions) legend two_orders)) /\
  "SKU" ∈ columns (map_skus_in_df (H := sample_conversions) legend two_orders).
Proof.
  assert ("Merchant SKU" ∈ columns two_orders) as Hsku
    by (apply (bool_decide_unpack _); reflexivity).
  assert (filters_states legend two_orders) as Hf.
  { split; apply (bool_decide_unpack _); [reflexivity|vm_compute; exact I]. }
  split; [exact Hsku|]. split; [exact Hf|].
  destruct (mapped_states_are_valid_codes (H := sample_conversions)
              legend two_orders Hsku Hf) as (Hno & Hyes & _).
  split; [exact Hno|exact Hyes].
Defined.

(** X18. The column [SKU] that [map_skus_in_df] adds holds, for every row
    it returns, what [map_sku] gives for the merchant SKU of the row; a
    merchant SKU that is no text, or is missing, is its own SKU. The
    merchant SKU itself stays as it is. *)
Theorem sku_column_agrees_with_map_sku `{Conversions} (self : SKUManager) (df : frame) :
  "Merchant SKU" ∈ columns df ->
  Forall (fun r : row =>
            r !! "SKU" =
            match r !! "Merchant SKU" with
            | Some (Text merchant_sku) => Some (Text (map_sku self merchant_sku))
            | other => other
            end)
         (rows (map_skus_in_df self df)) /\
  Forall (fun r : row => exists r0 : row,
            r0 ∈ rows df /\ r !! "Merchant SKU" = r0 !! "Merchant SKU")
         (rows (map_skus_in_df self df)).
Proof.
  intros Hsku.
  assert (forall r : row,
            with_sku self r !! "SKU" =
            match r !! "Merchant SKU" with
            | Some (Text merchant_sku) => Some (Text (map_sku self merchant_sku))
            | other => other
            end) as Hmap.
  { intros r. unfold with_sku. rewrite set_cell_lookup. unfold map_sku.
    destruct (r !! "Merchant SKU") as [ [s|q|t|y m d] | ]; simpl; try done.
    by destruct (sku_mapping self !! s). }
  rewrite map_skus_in_df_rows by done.
  destruct (decide (filters_states self df)); split;
    apply Forall_fmap, Forall_forall; intros r Hr; simpl.
  - rewrite !with_state_lookup_ne by done.
    rewrite (with_sku_lookup_ne _ _ "Merchant SKU") by done. apply Hmap.
  - apply list_elem_of_filter in Hr as [_ Hr]. exists r. split; [done|].
    rewrite with_state_lookup_ne by done. by rewrite with_sku_lookup_ne.
  - rewrite (with_sku_lookup_ne _ _ "Merchant SKU") by done. apply Hmap.
  - exists r. split; [done|]. by rewrite with_sku_lookup_ne.
Qed.

Lemma sku_column_agrees_witness :
  "Merchant SKU" ∈ columns two_orders /\
  Forall (fun r : row =>
            r !! "SKU" =
            match r !! "Merchant SKU" with
            | Some (Text merchant_sku) => Some (Text (map_sku legend merchant_sku))
            | other => other
            end)
         (rows (map_skus_in_df (H := sample_conversions) legend two_orders)).
Proof.
  assert ("Merchant SKU" ∈ columns two_orders) as Hsku
    by (apply (bool_decide_unpack _); reflexivity).
  split; [exact Hsku|].
  exact (proj1 (sku_column_agrees_with_map_sku (H := sample_conversions)
                  legend two_orders Hsku)).
Defined.

(** ** More on the workbook of the legend *)

(** X19. A write of a sheet that ends well puts the table under the name
    of the sheet and leaves every other sheet as it was. What the sheet
    held before does not matter to a later write: of two writes of a sheet
    the later one alone counts, and a write made twice is made once. *)
Theorem save_replaces_one_sheet (df : frame) (sheet_name : string) (s s' : store) :
  save_sheet_data df sheet_name Written s = (true, s') ->
  read_excel (legend_file s') sheet_name = Some df /\
  (forall other, other <> sheet_name ->
     read_excel (legend_file s') other = read_excel (legend_file s) other) /\
  (forall df', save_sheet_data df' sheet_name Written s' =
               save_sheet_data df' sheet_name Written s) /\
  save_sheet_data df sheet_name Written s' = (true, s').
Proof.
  intros Hsave.
  destruct (save_keeps_other_sheets _ _ _ _ Hsave) as [Hread Hother].
  split; [done|]. split; [done|].
  assert (forall df', save_sheet_data df' sheet_name Written s' =
                      save_sheet_data df' sheet_name Written s) as Hagain.
  { intros df'. revert Hsave. unfold save_sheet_data.
    destruct (legend_file s) as [sheets|]; [|done]. intros [= <-]. simpl.
    rewrite filter_cons_False by (simpl; tauto).
    rewrite list_filter_filter.
    by erewrite (list_filter_iff _ (fun sheet : string * frame => sheet.1 <> sheet_name))
      by (intros; tauto). }
  split; [done|]. by rewrite Hagain.
Qed.

Lemma save_replaces_one_sheet_witness :
  exists s',
    save_sheet_data (sku_sheet "WIDGET-B") "Amazon" Written legend_store = (true, s') /\
    read_excel (legend_file s') "Amazon" = Some (sku_sheet "WIDGET-B") /\
    read_excel (legend_file s') "US State" = Some states_sheet.
Proof.
  eexists.
  assert (save_sheet_data (sku_sheet "WIDGET-B") "Amazon" Written legend_store
          = (true, _)) as Hsave by reflexivity.
  split; [exact Hsave|].
  destruct (save_replaces_one_sheet _ _ _ _ Hsave) as (Hread & Hother & _).
  split; [exact Hread|].
  rewrite (Hother "US State") by discriminate. reflexivity.
Defined.

Lemma load_sheet_data_cached `{Conversions} name (s : store) :
  sheet_cache (load_sheet_data name s).2 !! name = Some (load_sheet_data name s).1.
Proof.
  unfold load_sheet_data. destruct (sheet_cache s !! name) eqn:Hc; simpl; [done|].
  apply lookup_insert_eq.
Qed.

Lemma after_call_keeps_cached `{Conversions} (s : store) call name df :
  sheet_cache s !! name = Some df ->
  sheet_cache (after_call s call) !! name = Some df.
Proof.
  intros Hc. destruct call as [df' sheet outcome|sheet]; simpl.
  - unfold save_sheet_data. destruct (legend_file s); [|done].
    by destruct outcome.
  - unfold load_sheet_data. destruct (sheet_cache s !! sheet) eqn:Hs; simpl; [done|].
    rewrite lookup_insert_ne; [done|]. intros ->. congruence.
Qed.

(** X20. A sheet that was read once is read the same ever after: whatever
    is written to the workbook or read from it after the first read, well or
    not, a later read of the sheet gives the table the first read gave, be
    it the empty table of a sheet that could not be read. *)
Theorem read_sheet_is_never_refreshed `{Conversions}
    (sheet_name : string) (s : store) (calls : list legend_call) :
  let first := load_sheet_data sheet_name s in
  (load_sheet_data sheet_name (foldl after_call first.2 calls)).1 = first.1.
Proof.
  intros first.
  assert (sheet_cache (foldl after_call first.2 calls) !! sheet_name = Some first.1)
    as Hc.
  { pose proof (load_sheet_data_cached sheet_name s) as Hfirst.
    fold first in Hfirst. revert Hfirst. generalize first.2 as s1.
    induction calls as [|call calls IH]; intros s1 Hs1; [done|].
    simpl. by apply IH, after_call_keeps_cached. }
  unfold load_sheet_data at 1. by rewrite Hc.
Qed.

Lemma foldl_columns `{Conversions} (cols : list string) (df : frame) :
  Forall (fun c => c ∈ columns df) cols ->
  columns (foldl (fun (df : frame) col =>
                    if dtype_is_object df col
                    then assign col (fun r => Some (Text (strip (astype_str (r !! col))))) df
                    else df) df cols) = columns df.
Proof.
  revert df. induction cols as [|c cols IH]; intros df Hall; [done|].
  apply Forall_cons in Hall as [Hc Hall]. simpl.
  assert (columns (if dtype_is_object df c
                   then assign c (fun r => Some (Text (strip (astype_str (r !! c))))) df
                   else df) = columns df) as Heq.
  { destruct (dtype_is_object df c); [|done].
    unfold assign. simpl. by rewrite decide_True. }
  rewrite IH; [done|]. by rewrite Heq.
Qed.

(** X21. What [load_sheet_data] reads of a sheet has the columns of the
    sheet that are not empty, in their order, and no row that is empty; it
    has no row the sheet lacks. So it is with the first read of a sheet
    after it is written: it gives the table written, cleaned so. *)
Theorem clean_sheet_keeps_filled_columns `{Conversions} (df : frame) :
  columns (clean_sheet df) =
    filter (fun col => non_empty_col df col = true) (columns df) /\
  Forall (fun r : row => r <> ∅) (rows (clean_sheet df)) /\
  (length (rows (clean_sheet df)) <= length (rows df))%nat /\
  (forall sheet_name (s s' : store),
     save_sheet_data df sheet_name Written s = (true, s') ->
     sheet_cache s !! sheet_name = None ->
     (load_sheet_data sheet_name s').1 = clean_sheet df).
Proof.
  split; [|split; [|split] ].
  - unfold clean_sheet. cbn [select columns].
    rewrite foldl_columns; [done|]. by apply Forall_forall.
  - unfold clean_sheet. apply Forall_forall.
    intros r [Hr _]%elem_of_rows_select.
    apply negb_true_iff, bool_decide_eq_false in Hr. done.
  - unfold clean_sheet. cbn [select rows].
    etrans; [apply length_filter|].
    set (cols := columns (select_columns _ df)).
    assert (forall (cols : list string) (d : frame),
              length (rows (foldl (fun (df : frame) col =>
                 if dtype_is_object df col
                 then assign col (fun r => Some (Text (strip (astype_str (r !! col))))) df
                 else df) d cols)) = length (rows d)) as Hlen.
    { clear. intros cols. induction cols as [|c cols IH]; intros d; [done|].
      simpl. rewrite IH. destruct (dtype_is_object d c); [|done].
      unfold assign. simpl. by rewrite length_fmap. }
    rewrite Hlen. unfold select_columns. simpl. by rewrite length_fmap.
  - intros sheet_name s s' Hsave Hcache. by eapply first_read_after_save.
Qed.
